(** * toy-iris-angular-ui: upload/task polling, dependency checks,
      data-fetch fallbacks and the theme store

    A shallow embedding of the TypeScript services and components of the
    console, and the properties its specification states about them.

    Conventions of the embedding:
    - a JS [number] that holds a count, an id, a size in bytes or a
      percentage is a [Z];
    - an optional field [f?: T] is an [option T], and JS truthiness is
      written out where the code relies on it ([x || d], [!x], [if (x)]);
    - a JS object used as a dictionary ([UploadStatus]) is a [gmap string _];
    - an HTTP call is a function of the response the server gives to it;
      the calls a function makes on its environment (requests, timers,
      observer notifications, console) are collected, in order, in a list
      of effects. *)

From Stdlib Require Import ZArith QArith List String Ascii Bool Lia.
From stdpp Require Import base option gmap strings list pretty.
Import ListNotations.
Open Scope Z_scope.
Open Scope string_scope.

(** ** JavaScript idioms *)

Module JS.

(** [s || d] on an optional string: [undefined] and [''] are falsy. *)
Definition or_str (s : option string) (d : string) : string :=
  match s with
  | Some v => if String.eqb v "" then d else v
  | None => d
  end.

(** [n || 0] on an optional number: [undefined] and [0] are falsy. *)
Definition or_zero (n : option Z) : Z :=
  match n with
  | Some v => v
  | None => 0
  end.

(** Truthiness of an optional boolean flag. *)
Definition truthy (b : option bool) : bool :=
  match b with
  | Some v => v
  | None => false
  end.

(** [parts.join(sep)]. *)
Fixpoint join (sep : string) (parts : list string) : string :=
  match parts with
  | [] => ""
  | [p] => p
  | p :: rest => p ++ sep ++ join sep rest
  end.

(** Template-literal rendering of an integral number. *)
Definition show (n : Z) : string := pretty n.

End JS.

(** ** Data model (upload.service.ts) *)

Record ErrorSummary := {
  totalErrors : Z;
  validationErrors : Z;
  skippedRows : Z
}.

(** One entry of the [UploadStatus] dictionary. *)
Record FileStatus := {
  exists_ : bool;
  count : Z;
  processing : option bool;
  failed : option bool;
  fs_progressPercentage : option Z;
  fs_progressMessage : option string;
  errorSummary : option ErrorSummary;
  fs_taskId : option Z
}.

Abbreviation UploadStatus := (gmap string FileStatus).

Record Task := {
  id : Z;
  taskType : string;
  status : string;
  fileName : option string;
  errorMessage : option string;
  progressMessage : option string;
  progressPercentage : option Z;
  resultUrl : option string
}.

Record DependencyCheck := {
  enabled : bool;
  message : string
}.

(** ** Dependency checker *)

(** [statusData[key]?.exists], as a truth value. *)
Definition exists_at (statusData : UploadStatus) (key : string) : bool :=
  match statusData !! key with
  | Some st => exists_ st
  | None => false
  end.

(** [if (!statusData[key]?.exists) missingDeps.push(key)]. *)
Definition push_missing (statusData : UploadStatus) (key : string)
    (missingDeps : list string) : list string :=
  if negb (exists_at statusData key) then missingDeps ++ [key] else missingDeps.

Definition checkUploadDependencies (fileType : string)
    (statusData : UploadStatus) : DependencyCheck :=
  if String.eqb fileType "styles" || String.eqb fileType "stores" then
    {| enabled := true; message := "" |}
  else if String.eqb fileType "skus" then
    if negb (exists_at statusData "styles") then
      {| enabled := false;
         message := "Upload styles first (styles → skus → sales)" |}
    else {| enabled := true; message := "" |}
  else if String.eqb fileType "sales" then
    let missingDeps :=
      push_missing statusData "stores"
        (push_missing statusData "skus"
           (push_missing statusData "styles" [])) in
    if (0 <? Z.of_nat (length missingDeps))%Z then
      {| enabled := false;
         message := "Upload " ++ JS.join ", " missingDeps ++ " first" |}
    else {| enabled := true; message := "" |}
  else {| enabled := true; message := "" |}.

(** ** HTTP errors and [handleError] (upload.service.ts) *)

(** The [error] property of an [HttpErrorResponse]. *)
Inductive ErrorBody :=
| BodyErrorEvent (msg : string)
| BodyText (text : string)
| BodyJson (msg : option string) (err : option string)
| BodyNone.

Record HttpErrorResponse := {
  http_status : Z;
  http_message : string;
  http_error : ErrorBody
}.

(** A JS [Error]; the upload poller attaches the failed task to it. *)
Record JsError := {
  err_message : string;
  err_task : option Task
}.

Definition new_Error (msg : string) : JsError :=
  {| err_message := msg; err_task := None |}.

(** The outcome the server gives to one request. *)
Inductive HttpResult (A : Type) :=
| Ok (a : A)
| Failed (e : HttpErrorResponse).
Arguments Ok {A} a.
Arguments Failed {A} e.

Module Str.

(** [s.startsWith(p)]. *)
Fixpoint startsWith (p s : string) : bool :=
  match p, s with
  | EmptyString, _ => true
  | String a p', String b s' => Ascii.eqb a b && startsWith p' s'
  | String _ _, EmptyString => false
  end.

(** [s.includes(p)]. *)
Fixpoint includes (s p : string) : bool :=
  startsWith p s ||
  match s with
  | EmptyString => false
  | String _ s' => includes s' p
  end.

Definition newline : string := String (ascii_of_nat 10) EmptyString.

End Str.

Definition looks_like_html (body : string) : bool :=
  Str.includes body "<!doctype" || Str.includes body "<html".

Definition backend_unreachable : string :=
  "Backend server is not running or endpoint not found. Please check if the Spring backend is running on port 9000.".

(** The message [handleError] computes. *)
Definition handleError_message (error : HttpErrorResponse) : string :=
  match http_error error with
  | BodyErrorEvent msg => "Error: " ++ msg
  | body =>
    let errorMessage :=
      "Error Code: " ++ JS.show (http_status error) ++ Str.newline
        ++ "Message: " ++ http_message error in
    match body with
    | BodyText text =>
      if String.eqb text "" then errorMessage
      else if looks_like_html text then backend_unreachable
      else text
    | BodyJson (Some m) e =>
      if negb (String.eqb m "") then m
      else match e with
           | Some e' => if negb (String.eqb e' "") then e' else errorMessage
           | None => errorMessage
           end
    | BodyJson None (Some e') =>
      if negb (String.eqb e' "") then e' else errorMessage
    | _ => errorMessage
    end
  end.

(** [handleError]: always [throwError(() => new Error(errorMessage))]. *)
Definition handleError (error : HttpErrorResponse) : JsError :=
  new_Error (handleError_message error).

(** ** Effects of the polling engine *)

(** The requests of upload.service.ts, by endpoint. *)
Inductive Request :=
| PostUploadAsync (fileType : string)   (* POST /file/upload/{type}/async *)
| PostDownloadAsync (fileType : string) (* POST /file/download/{type}/async *)
| GetTaskStatus (taskId : Z)            (* GET /tasks/{id} *)
| GetTaskResult (taskId : Z)            (* GET /tasks/{id}/result *)
| PostCancelTask (taskId : Z).          (* POST /tasks/{id}/cancel *)

(** What a function does to its environment, in program order; [E] is the
    type of the values passed to [observer.next]. *)
Inductive Effect (E : Type) :=
| Send (r : Request)
| SetTimeout (ms : Z)
| ObserverNext (ev : E)
| ObserverComplete
| ObserverError (e : JsError).
Arguments Send {E} r.
Arguments SetTimeout {E} ms.
Arguments ObserverNext {E} ev.
Arguments ObserverComplete {E}.
Arguments ObserverError {E} e.

(** [{ progress, task?, completed? }] of [uploadFileAsync]. *)
Record UploadEvent := {
  progress : Z;
  ev_task : option Task;
  completed : option bool
}.

Definition Blob := string.

(** [{ progress, blob?, filename? }] of [downloadDataFileAsync]. *)
Record DownloadEvent := {
  dl_progress : Z;
  blob : option Blob;
  filename : option string
}.

Record File := {
  name : string;
  size : Z
}.

(** ** The polling loops *)

Definition upload_maxPolls : nat := 240.
Definition download_maxPolls : nat := 120.

(** [pollUploadTaskStatus(taskId, observer, fileType, pollCount)].
    [responses] holds the outcomes of the status requests still to come,
    one per request; when it runs out the last request stays in flight.
    A timer set by [setTimeout] fires, and its callback is the recursive
    call. *)
Fixpoint pollUploadTaskStatus (taskId : Z) (fileType : string)
    (responses : list (HttpResult Task)) (pollCount : nat)
    : list (Effect UploadEvent) :=
  if (upload_maxPolls <=? pollCount)%nat then
    [ObserverError (new_Error "Upload timeout - task is taking too long")]
  else
    Send (GetTaskStatus taskId) ::
    match responses with
    | [] => []
    | Ok task :: rest =>
      if String.eqb (status task) "COMPLETED" then
        [ObserverNext {| progress := 100; ev_task := Some task;
                         completed := Some true |};
         ObserverComplete]
      else if String.eqb (status task) "FAILED" then
        [ObserverError
           {| err_message := JS.or_str (errorMessage task) "Upload failed";
              err_task := Some task |}]
      else if String.eqb (status task) "CANCELLED" then
        [ObserverError (new_Error "Upload was cancelled")]
      else if String.eqb (status task) "PENDING"
              || String.eqb (status task) "RUNNING" then
        ObserverNext {| progress := JS.or_zero (progressPercentage task);
                        ev_task := Some task; completed := None |}
        :: SetTimeout 2000
        :: pollUploadTaskStatus taskId fileType rest (pollCount + 1)
      else
        [ObserverError (new_Error ("Unknown task status: " ++ status task))]
    | Failed _ :: rest =>
      SetTimeout 2000
      :: pollUploadTaskStatus taskId fileType rest (pollCount + 1)
    end.

(** [pollTaskStatus(taskId, observer, fileType, pollCount)], the download
    variant; [result] is the outcome of the result download, if it has
    arrived. *)
Fixpoint pollTaskStatus (taskId : Z) (fileType : string)
    (responses : list (HttpResult Task)) (result : option (HttpResult Blob))
    (pollCount : nat) : list (Effect DownloadEvent) :=
  if (download_maxPolls <=? pollCount)%nat then
    [ObserverError (new_Error "Download timeout - task is taking too long")]
  else
    Send (GetTaskStatus taskId) ::
    match responses with
    | [] => []
    | Ok task :: rest =>
      if String.eqb (status task) "COMPLETED" then
        Send (GetTaskResult taskId) ::
        match result with
        | None => []
        | Some (Ok b) =>
          [ObserverNext {| dl_progress := 100; blob := Some b;
                           filename := Some (fileType ++ "_data.tsv") |};
           ObserverComplete]
        | Some (Failed e) => [ObserverError (handleError e)]
        end
      else if String.eqb (status task) "FAILED" then
        [ObserverError
           (new_Error (JS.or_str (errorMessage task) "Download failed"))]
      else if String.eqb (status task) "CANCELLED" then
        [ObserverError (new_Error "Download was cancelled")]
      else if String.eqb (status task) "PENDING"
              || String.eqb (status task) "RUNNING" then
        ObserverNext {| dl_progress := JS.or_zero (progressPercentage task);
                        blob := None; filename := None |}
        :: SetTimeout 5000
        :: pollTaskStatus taskId fileType rest result (pollCount + 1)
      else
        [ObserverError (new_Error ("Unknown task status: " ++ status task))]
    | Failed _ :: rest =>
      SetTimeout 5000
      :: pollTaskStatus taskId fileType rest result (pollCount + 1)
    end.

(** [uploadFileAsync(fileType, file)], subscribed to: [startUploadTask]
    refuses an absent file before building the request; [submit] is the
    outcome of the upload request, if it has arrived. *)
Definition uploadFileAsync (fileType : string) (file : option File)
    (submit : option (HttpResult Task)) (responses : list (HttpResult Task))
    : list (Effect UploadEvent) :=
  match file with
  | None => [ObserverError (new_Error "No file provided for upload")]
  | Some _ =>
    Send (PostUploadAsync fileType) ::
    match submit with
    | None => []
    | Some (Failed e) => [ObserverError (handleError e)]
    | Some (Ok task) =>
      if String.eqb (status task) "FAILED" then
        [ObserverError
           (new_Error (JS.or_str (errorMessage task) "Upload failed"))]
      else pollUploadTaskStatus (id task) fileType responses 0
    end
  end.

(** [downloadDataFileAsync(fileType)], subscribed to. *)
Definition downloadDataFileAsync (fileType : string)
    (submit : option (HttpResult Task)) (responses : list (HttpResult Task))
    (result : option (HttpResult Blob)) : list (Effect DownloadEvent) :=
  Send (PostDownloadAsync fileType) ::
  match submit with
  | None => []
  | Some (Failed e) => [ObserverError (handleError e)]
  | Some (Ok task) =>
    if String.eqb (status task) "FAILED" then
      [ObserverError
         (new_Error (JS.or_str (errorMessage task) "Download failed"))]
    else pollTaskStatus (id task) fileType responses result 0
  end.

(** ** The subscriber of a progress sequence (RxJS semantics)

    The observer handed to the callback of [new Observable(...)] is a
    subscriber: once it is stopped (by [error], [complete] or by the
    consumer's [unsubscribe]) it drops every later notification.  The
    callbacks of [uploadFileAsync] and [downloadDataFileAsync] return no
    teardown function, and the pollers never read the subscriber's state:
    unsubscribing changes what the consumer receives, not what the pollers
    do. *)

Inductive Notification (E : Type) :=
| Value (ev : E)
| Completed
| Errored (e : JsError).
Arguments Value {E} ev.
Arguments Completed {E}.
Arguments Errored {E} e.

Record Subscriber (E : Type) := {
  isStopped : bool;
  received : list (Notification E)
}.
Arguments isStopped {E} s.
Arguments received {E} s.

Module Rx.
Section Subscriber.
Context {E : Type}.

Definition fresh : Subscriber E := {| isStopped := false; received := [] |}.

Definition next (s : Subscriber E) (ev : E) : Subscriber E :=
  if isStopped s then s
  else {| isStopped := false; received := received s ++ [Value ev] |}.

Definition complete (s : Subscriber E) : Subscriber E :=
  if isStopped s then s
  else {| isStopped := true; received := received s ++ [Completed] |}.

Definition error (s : Subscriber E) (e : JsError) : Subscriber E :=
  if isStopped s then s
  else {| isStopped := true; received := received s ++ [Errored e] |}.


(** One effect of the producer, seen from the subscriber. *)
Definition notify (s : Subscriber E) (eff : Effect E) : Subscriber E :=
  match eff with
  | ObserverNext ev => next s ev
  | ObserverComplete => complete s
  | ObserverError e => error s e
  | Send _ | SetTimeout _ => s
  end.

Definition observe (effects : list (Effect E)) (s : Subscriber E)
    : Subscriber E :=
  fold_left notify effects s.

(** The consumer subscribes and never unsubscribes. *)
Definition subscribed (effects : list (Effect E)) : Subscriber E :=
  observe effects fresh.


End Subscriber.
End Rx.

(** The requests among the effects, in order. *)
Definition requests {E} (effects : list (Effect E)) : list Request :=
  omap (fun eff => match eff with Send r => Some r | _ => None end) effects.

(** The values passed to [observer.next], in order. *)
Definition emitted {E} (effects : list (Effect E)) : list E :=
  omap (fun eff => match eff with ObserverNext ev => Some ev | _ => None end)
       effects.

(** The delays of the timers set, in order. *)
Definition delays {E} (effects : list (Effect E)) : list Z :=
  omap (fun eff => match eff with SetTimeout ms => Some ms | _ => None end)
       effects.

Definition is_status_request (r : Request) : bool :=
  match r with GetTaskStatus _ => true | _ => false end.


(** ** File validation (upload.service.ts) *)

Module Validation.

Definition lower (c : ascii) : ascii :=
  let n := nat_of_ascii c in
  if ((65 <=? n) && (n <=? 90))%nat then ascii_of_nat (n + 32) else c.

(** [s.toLowerCase()], on ASCII names. *)
Fixpoint toLowerCase (s : string) : string :=
  match s with
  | EmptyString => EmptyString
  | String c s' => String (lower c) (toLowerCase s')
  end.

(** [s.lastIndexOf(c)], scanning from position [i]: -1 when absent. *)
Fixpoint lastIndexOf_from (i : Z) (c : ascii) (s : string) : Z :=
  match s with
  | EmptyString => -1
  | String d s' =>
    let later := lastIndexOf_from (i + 1) c s' in
    if (0 <=? later)%Z then later
    else if Ascii.eqb d c then i else -1
  end.

Definition lastIndexOf (s : string) (c : ascii) : Z :=
  lastIndexOf_from 0 c s.

(** [s.substring(start)]: a negative start counts as 0, a start past the
    end gives the empty string. *)
Fixpoint drop_chars (n : nat) (s : string) : string :=
  match n, s with
  | O, _ => s
  | S n', String _ s' => drop_chars n' s'
  | S _, EmptyString => EmptyString
  end.

Definition substring (s : string) (start : Z) : string :=
  drop_chars (Z.to_nat (Z.max 0 start)) s.

Definition validTypes : list string := [".tsv"; ".txt"].

(** [validTypes.includes(x)]. *)
Definition includes (l : list string) (x : string) : bool :=
  existsb (String.eqb x) l.

Definition fileExtension (file : File) : string :=
  substring (toLowerCase (name file)) (lastIndexOf (name file) ".").

Definition isValidFileType (file : File) : bool :=
  includes validTypes (fileExtension file).

Definition default_maxSizeMB : Z := 50.

Definition isValidFileSize (file : File) (maxSizeMB : Z) : bool :=
  let maxSizeBytes := maxSizeMB * 1024 * 1024 in
  (size file <=? maxSizeBytes)%Z.

End Validation.

(** ** The upload component (upload.component.ts) *)

Module UploadComponent.

(** ['pending' | 'processing' | 'success' | 'error' | 'blocked']. *)
Inductive Status := Pending | Processing | Success | Error | Blocked.

Definition Status_eqb (a b : Status) : bool :=
  match a, b with
  | Pending, Pending | Processing, Processing | Success, Success
  | Error, Error | Blocked, Blocked => true
  | _, _ => false
  end.

Record UploadFile := {
  uf_id : string;
  displayName : string;
  description : string;
  uf_status : Status;
  uf_count : option Z;
  uf_progress : option Z;
  uf_progressMessage : option string;
  uf_errorMessage : option string;
  dependencyMessage : option string;
  uf_taskId : option Z;
  canUpload : bool;
  hasValidationReport : option bool
}.

(** The branch of [updateUploadFilesStatus] taken for a file that is
    being processed. *)
Definition mark_processing (st : FileStatus) (file : UploadFile)
    : UploadFile :=
  {| uf_id := uf_id file; displayName := displayName file;
     description := description file;
     uf_status := Processing;
     uf_count := uf_count file;
     uf_progress := Some (JS.or_zero (fs_progressPercentage st));
     uf_progressMessage :=
       Some (JS.or_str (fs_progressMessage st) "Processing your file...");
     uf_errorMessage := uf_errorMessage file;
     dependencyMessage := dependencyMessage file;
     uf_taskId := fs_taskId st;
     canUpload := canUpload file;
     hasValidationReport := hasValidationReport file |}.

(** The branch taken for a failed file. *)
Definition mark_failed (st : FileStatus) (file : UploadFile) : UploadFile :=
  {| uf_id := uf_id file; displayName := displayName file;
     description := description file;
     uf_status := Error;
     uf_count := uf_count file;
     uf_progress := uf_progress file;
     uf_progressMessage := uf_progressMessage file;
     uf_errorMessage :=
       Some match errorSummary st with
            | Some es =>
              "Upload failed: " ++ JS.show (totalErrors es) ++ " errors"
            | None => "Upload failed due to error"
            end;
     dependencyMessage := dependencyMessage file;
     uf_taskId := fs_taskId st;
     canUpload := canUpload file;
     hasValidationReport :=
       match errorSummary st with
       | Some es => Some (0 <? totalErrors es)%Z
       | None => None
       end |}.

(** The branch taken for a file whose data exists. *)
Definition mark_success (st : FileStatus) (file : UploadFile) : UploadFile :=
  {| uf_id := uf_id file; displayName := displayName file;
     description := description file;
     uf_status := Success;
     uf_count := Some (count st);
     uf_progress := uf_progress file;
     uf_progressMessage := uf_progressMessage file;
     uf_errorMessage := uf_errorMessage file;
     dependencyMessage := dependencyMessage file;
     uf_taskId := uf_taskId file;
     canUpload := canUpload file;
     hasValidationReport := hasValidationReport file |}.

Definition set_status (s : Status) (file : UploadFile) : UploadFile :=
  {| uf_id := uf_id file; displayName := displayName file;
     description := description file;
     uf_status := s;
     uf_count := uf_count file;
     uf_progress := uf_progress file;
     uf_progressMessage := uf_progressMessage file;
     uf_errorMessage := uf_errorMessage file;
     dependencyMessage := dependencyMessage file;
     uf_taskId := uf_taskId file;
     canUpload := canUpload file;
     hasValidationReport := hasValidationReport file |}.

(** [if (file.status !== 'error') file.status = 'pending']. *)
Definition pending_unless_error (file : UploadFile) : UploadFile :=
  if negb (Status_eqb (uf_status file) Error) then set_status Pending file
  else file.

(** The dependency step that ends the loop body. *)
Definition apply_dependencies (dependencyCheck : DependencyCheck)
    (file : UploadFile) : UploadFile :=
  {| uf_id := uf_id file; displayName := displayName file;
     description := description file;
     uf_status :=
       if negb (enabled dependencyCheck) then Blocked else uf_status file;
     uf_count := uf_count file;
     uf_progress := uf_progress file;
     uf_progressMessage := uf_progressMessage file;
     uf_errorMessage := uf_errorMessage file;
     dependencyMessage :=
       if negb (enabled dependencyCheck)
       then Some (message dependencyCheck) else dependencyMessage file;
     uf_taskId := uf_taskId file;
     canUpload := enabled dependencyCheck;
     hasValidationReport := hasValidationReport file |}.

(** The body of the [forEach] of [updateUploadFilesStatus]. *)
Definition refresh_file (statusData : UploadStatus) (file : UploadFile)
    : UploadFile :=
  let file' :=
    match statusData !! uf_id file with
    | Some st =>
      if JS.truthy (processing st) then mark_processing st file
      else if JS.truthy (failed st) then mark_failed st file
      else if exists_ st then mark_success st file
      else pending_unless_error file
    | None => pending_unless_error file
    end in
  apply_dependencies (checkUploadDependencies (uf_id file) statusData) file'.

Definition updateUploadFilesStatus (statusData : UploadStatus)
    (uploadFiles : list UploadFile) : list UploadFile :=
  map (refresh_file statusData) uploadFiles.

Definition initial_file (i d desc : string) : UploadFile :=
  {| uf_id := i; displayName := d; description := desc;
     uf_status := Pending; uf_count := None; uf_progress := None;
     uf_progressMessage := None; uf_errorMessage := None;
     dependencyMessage := None; uf_taskId := None; canUpload := true;
     hasValidationReport := None |}.

(** The initial value of the [uploadFiles] field. *)
Definition initial_uploadFiles : list UploadFile :=
  [ initial_file "styles" "Styles Data"
      "Upload style master data - brand, category, MRP, gender info";
    initial_file "stores" "Stores Data"
      "Upload store master data - branch and city information";
    initial_file "skus" "SKUs Data"
      "Upload SKU master data - style-size combinations";
    initial_file "sales" "Sales Data"
      "Upload sales transaction data - depends on styles, stores, and SKUs" ].

Record Component := {
  uploadFiles : list UploadFile;
  selectedFile : option File;
  selectedFileType : string;
  showUploadModal : bool
}.

(** What [uploadFile] does to the outside, in order. *)
Inductive Log :=
| ConsoleError (msg : string)
| Net (r : Request).

Definition closeUploadModal (c : Component) : Component :=
  {| uploadFiles := uploadFiles c; selectedFile := None;
     selectedFileType := ""; showUploadModal := false |}.

(** [uploadFile()], up to the point where it has subscribed to
    [uploadFileAsync]: no response has arrived yet. *)
Definition uploadFile (c : Component) : Component * list Log :=
  match selectedFile c with
  | None => (c, [ConsoleError "No file or file type selected"])
  | Some file =>
    if String.eqb (selectedFileType c) "" then
      (c, [ConsoleError "No file or file type selected"])
    else if negb (Validation.isValidFileType file) then
      (c, [ConsoleError
             "Invalid file type. Please select a .tsv or .txt file."])
    else if negb (Validation.isValidFileSize file
                    Validation.default_maxSizeMB) then
      (c, [ConsoleError "File size too large. Maximum size is 50MB."])
    else
      let fileToUpload := file in
      let fileTypeToUpload := selectedFileType c in
      (closeUploadModal c,
       map Net (requests (uploadFileAsync fileTypeToUpload
                            (Some fileToUpload) None [])))
  end.

Definition sent (log : list Log) : list Request :=
  omap (fun l => match l with Net r => Some r | _ => None end) log.

(** [this.uploadFiles.find(f => f.id === fileType)]. *)
Definition find_file (fileType : string) (files : list UploadFile)
    : option UploadFile :=
  List.find (fun f => String.eqb (uf_id f) fileType) files.

(** A change made to the file that [find] returns: the first of that id,
    updated in place. *)
Fixpoint update_file (fileType : string) (change : UploadFile -> UploadFile)
    (files : list UploadFile) : list UploadFile :=
  match files with
  | [] => []
  | f :: rest =>
    if String.eqb (uf_id f) fileType then change f :: rest
    else f :: update_file fileType change rest
  end.

Definition set_uploadFiles (files : list UploadFile) (c : Component)
    : Component :=
  {| uploadFiles := files; selectedFile := selectedFile c;
     selectedFileType := selectedFileType c;
     showUploadModal := showUploadModal c |}.

Definition openUploadModal (fileType : string) (c : Component) : Component :=
  match find_file fileType (uploadFiles c) with
  | Some file =>
    if canUpload file && negb (Status_eqb (uf_status file) Processing) then
      {| uploadFiles := uploadFiles c; selectedFile := None;
         selectedFileType := fileType; showUploadModal := true |}
    else c
  | None => c
  end.

(** [onFileSelected(event)]; [files] is [input.files]. *)
Definition onFileSelected (files : option (list File)) (c : Component)
    : Component :=
  match files with
  | Some (file :: _) =>
    {| uploadFiles := uploadFiles c; selectedFile := Some file;
       selectedFileType := selectedFileType c;
       showUploadModal := showUploadModal c |}
  | _ => c
  end.

(** The calls the component makes on the upload service, apart from
    [uploadFileAsync]. *)
Inductive ServiceCall :=
| CallCancelTask (taskId : Z)
| CallDownloadDataFileAsync (fileType : string)
| CallDownloadValidationReport (taskId : Z)
| CallFetchDataStatus.

(** Truthiness of an optional number: [undefined] and [0] are falsy. *)
Definition truthy_number (n : option Z) : bool :=
  match n with
  | Some v => negb (v =? 0)%Z
  | None => false
  end.

Definition cancelTask (fileType : string) (c : Component)
    : list ServiceCall :=
  match find_file fileType (uploadFiles c) with
  | Some file =>
    if Status_eqb (uf_status file) Processing
       && truthy_number (uf_taskId file)
    then [CallCancelTask (JS.or_zero (uf_taskId file))]
    else []
  | None => []
  end.

Definition downloadDataFile (fileType : string) (c : Component)
    : list ServiceCall :=
  match find_file fileType (uploadFiles c) with
  | Some file =>
    if Status_eqb (uf_status file) Success
    then [CallDownloadDataFileAsync fileType]
    else []
  | None => []
  end.

Definition downloadValidationReport (fileType : string) (c : Component)
    : list ServiceCall :=
  match find_file fileType (uploadFiles c) with
  | Some file =>
    if Status_eqb (uf_status file) Error then
      if truthy_number (uf_taskId file)
      then [CallDownloadValidationReport (JS.or_zero (uf_taskId file))]
      else []
    else []
  | None => []
  end.

(** The [next] callback of [uploadFile], on the file found. *)
Definition on_upload_event (result : UploadEvent) (file : UploadFile)
    : UploadFile :=
  let file' :=
    match ev_task result with
    | Some task =>
      {| uf_id := uf_id file; displayName := displayName file;
         description := description file;
         uf_status := Processing;
         uf_count := uf_count file;
         uf_progress := Some (progress result);
         uf_progressMessage :=
           Some (JS.or_str (progressMessage task)
                   ("Processing... " ++ JS.show (progress result) ++ "%"));
         uf_errorMessage := uf_errorMessage file;
         dependencyMessage := dependencyMessage file;
         uf_taskId := Some (id task);
         canUpload := canUpload file;
         hasValidationReport := hasValidationReport file |}
    | None => file
    end in
  if JS.truthy (completed result) then
    {| uf_id := uf_id file'; displayName := displayName file';
       description := description file';
       uf_status := Success;
       uf_count := uf_count file';
       uf_progress := Some 100;
       uf_progressMessage := Some "Upload completed successfully!";
       uf_errorMessage := uf_errorMessage file';
       dependencyMessage := dependencyMessage file';
       uf_taskId := uf_taskId file';
       canUpload := canUpload file';
       hasValidationReport := hasValidationReport file' |}
  else file'.

(** [error.message && (error.message.includes('validation') || ...)]. *)
Definition mentions_validation (msg : string) : bool :=
  negb (String.eqb msg "")
  && (Str.includes msg "validation" || Str.includes msg "error"
      || Str.includes msg "missing").

(** The [error] callback of [uploadFile], on the file found. *)
Definition on_upload_error (error : JsError) (file : UploadFile)
    : UploadFile :=
  {| uf_id := uf_id file; displayName := displayName file;
     description := description file;
     uf_status := Error;
     uf_count := uf_count file;
     uf_progress := Some 0;
     uf_progressMessage := Some "";
     uf_errorMessage := Some ("Upload failed: " ++ err_message error);
     dependencyMessage := dependencyMessage file;
     uf_taskId :=
       match err_task error with
       | Some task => Some (id task)
       | None => uf_taskId file
       end;
     canUpload := canUpload file;
     hasValidationReport :=
       if mentions_validation (err_message error) then Some true
       else hasValidationReport file |}.

(** What the subscription of [uploadFile] does with one notification; it
    has no [complete] callback. The console output is left out. *)
Definition upload_notified (fileTypeToUpload : string)
    (n : Notification UploadEvent) (c : Component)
    : Component * list ServiceCall :=
  match n with
  | Value result =>
    match find_file fileTypeToUpload (uploadFiles c) with
    | Some _ =>
      (set_uploadFiles
         (update_file fileTypeToUpload (on_upload_event result)
            (uploadFiles c)) c,
       if JS.truthy (completed result) then [CallFetchDataStatus] else [])
    | None => (c, [])
    end
  | Errored error =>
    match find_file fileTypeToUpload (uploadFiles c) with
    | Some _ =>
      (set_uploadFiles
         (update_file fileTypeToUpload (on_upload_error error)
            (uploadFiles c)) c, [])
    | None => (c, [])
    end
  | Completed => (c, [])
  end.

(** The component after the notifications received so far, with the
    service calls made on the way. *)
Fixpoint upload_view (fileTypeToUpload : string)
    (received : list (Notification UploadEvent)) (c : Component)
    : Component * list ServiceCall :=
  match received with
  | [] => (c, [])
  | n :: rest =>
    let (c', calls) := upload_notified fileTypeToUpload n c in
    let (c'', calls') := upload_view fileTypeToUpload rest c' in
    (c'', (calls ++ calls')%list)
  end.




End UploadComponent.

(** ** The theme store (ThemeService) *)

Module ThemeService.

(** ['light' | 'dark' | 'system']. *)
Inductive ThemeMode := light | dark | system.

Definition ThemeMode_eqb (a b : ThemeMode) : bool :=
  match a, b with
  | light, light | dark, dark | system, system => true
  | _, _ => false
  end.

Definition mode_name (m : ThemeMode) : string :=
  match m with light => "light" | dark => "dark" | system => "system" end.

Record ThemeState := {
  mode : ThemeMode;
  isDark : bool;
  systemPrefersDark : bool
}.

(** The service, with the parts of the page and of the local storage it
    writes: the [data-theme] attribute of the root element, the content
    of the theme-color meta element and the saved preference. *)
Record State := {
  _themeMode : ThemeMode;
  _systemPrefersDark : bool;
  themeStateSubject : ThemeState;
  data_theme : option string;
  meta_theme_color : option string;
  saved_preference : option string
}.

(** The computed signal [_isDark]. *)
Definition _isDark (s : State) : bool :=
  let mode := _themeMode s in
  if ThemeMode_eqb mode system then _systemPrefersDark s
  else ThemeMode_eqb mode dark.

Definition updateThemeState (s : State) : State :=
  {| _themeMode := _themeMode s;
     _systemPrefersDark := _systemPrefersDark s;
     themeStateSubject :=
       {| mode := _themeMode s; isDark := _isDark s;
          systemPrefersDark := _systemPrefersDark s |};
     data_theme := data_theme s;
     meta_theme_color := meta_theme_color s;
     saved_preference := saved_preference s |}.

Definition applyTheme (s : State) : State :=
  let isDark := _isDark s in
  {| _themeMode := _themeMode s;
     _systemPrefersDark := _systemPrefersDark s;
     themeStateSubject := themeStateSubject s;
     data_theme := Some (if isDark then "dark" else "light");
     meta_theme_color := Some (if isDark then "#1a1a1a" else "#ffffff");
     saved_preference := saved_preference s |}.

(** [saveThemePreference]: a write that the storage refuses is caught
    and logged. *)
Definition saveThemePreference (storage_writable : bool) (m : ThemeMode)
    (s : State) : State :=
  {| _themeMode := _themeMode s;
     _systemPrefersDark := _systemPrefersDark s;
     themeStateSubject := themeStateSubject s;
     data_theme := data_theme s;
     meta_theme_color := meta_theme_color s;
     saved_preference :=
       if storage_writable then Some (mode_name m) else saved_preference s |}.

Definition set_themeMode (m : ThemeMode) (s : State) : State :=
  {| _themeMode := m;
     _systemPrefersDark := _systemPrefersDark s;
     themeStateSubject := themeStateSubject s;
     data_theme := data_theme s;
     meta_theme_color := meta_theme_color s;
     saved_preference := saved_preference s |}.

Definition set_systemPrefersDark (b : bool) (s : State) : State :=
  {| _themeMode := _themeMode s;
     _systemPrefersDark := b;
     themeStateSubject := themeStateSubject s;
     data_theme := data_theme s;
     meta_theme_color := meta_theme_color s;
     saved_preference := saved_preference s |}.

Definition setTheme (storage_writable : bool) (m : ThemeMode) (s : State)
    : State :=
  saveThemePreference storage_writable m
    (applyTheme (updateThemeState (set_themeMode m s))).

(** The listener that [setupSystemThemeListener] registers for the
    [change] event of the media query; [matches] is [e.matches]. *)
Definition on_system_theme_change (matches : bool) (s : State) : State :=
  let s1 := updateThemeState (set_systemPrefersDark matches s) in
  if ThemeMode_eqb (_themeMode s1) system then applyTheme s1 else s1.

(** [getSavedThemePreference]. *)
Definition getSavedThemePreference (saved : option string)
    : option ThemeMode :=
  match saved with
  | Some v =>
    if String.eqb v "light" then Some light
    else if String.eqb v "dark" then Some dark
    else if String.eqb v "system" then Some system
    else None
  | None => None
  end.

(** The state after the constructor: [initializeTheme], then the
    listener is registered. *)
Definition init (query_matches : bool) (saved : option string) : State :=
  let m := match getSavedThemePreference saved with
           | Some m => m
           | None => system
           end in
  let s0 :=
    {| _themeMode := system;
       _systemPrefersDark := query_matches;
       themeStateSubject :=
         {| mode := system; isDark := query_matches;
            systemPrefersDark := query_matches |};
       data_theme := None; meta_theme_color := None;
       saved_preference := saved |} in
  applyTheme (updateThemeState (set_themeMode m s0)).

Definition toggleTheme (storage_writable : bool) (s : State) : State :=
  let currentMode := _themeMode s in
  if ThemeMode_eqb currentMode system then
    setTheme storage_writable (if _systemPrefersDark s then light else dark) s
  else
    setTheme storage_writable
      (if ThemeMode_eqb currentMode light then dark else light) s.

Definition resetTheme (storage_writable : bool) (s : State) : State :=
  setTheme storage_writable system s.

(** [clearThemePreference]: when the storage refuses the removal, the
    exception is caught before the theme is reset. *)
Definition clearThemePreference (storage_removable storage_writable : bool)
    (s : State) : State :=
  if storage_removable then
    resetTheme storage_writable
      {| _themeMode := _themeMode s;
         _systemPrefersDark := _systemPrefersDark s;
         themeStateSubject := themeStateSubject s;
         data_theme := data_theme s;
         meta_theme_color := meta_theme_color s;
         saved_preference := None |}
  else s.

End ThemeService.

(** ** Data-fetch services *)

(** The JSON payloads of the REST API; TypeScript's interfaces are erased
    at run time, [{}] is [JObj []]. *)
#[local] Unset Elimination Schemes.
Inductive Json :=
| JNull
| JBool (b : bool)
| JNum (q : Q)
| JStr (s : string)
| JArr (items : list Json)
| JObj (fields : list (string * Json)).
#[local] Set Elimination Schemes.

(** What reaches the error callback of a subscriber. *)
Inductive Thrown :=
| ThrownHttp (e : HttpErrorResponse)
| ThrownJs (e : JsError).

(** What an observable built on one request delivers. *)
Inductive Outcome (A : Type) :=
| Emits (a : A)
| Throws (t : Thrown).
Arguments Emits {A} a.
Arguments Throws {A} t.

(** [source.pipe(catchError(handler))]. *)
Definition catchError {A} (source : HttpResult A)
    (handler : HttpErrorResponse -> Outcome A) : Outcome A :=
  match source with
  | Ok a => Emits a
  | Failed e => handler e
  end.


(** [of(value)] in a handler. *)
Definition of_ {A} (value : A) : HttpErrorResponse -> Outcome A :=
  fun _ => Emits value.

(** [throw error] in a handler. *)
Definition rethrow {A} : HttpErrorResponse -> Outcome A :=
  fun error => Throws (ThrownHttp error).

(** [this.handleError] as a handler. *)
Definition viaHandleError {A} : HttpErrorResponse -> Outcome A :=
  fun error => Throws (ThrownJs (handleError error)).

Module AlgorithmParametersService.

(** [getFallbackParameters()]; [now] is [new Date().toISOString()]. *)
Definition getFallbackParameters (now : string) : Json :=
  JObj [ ("parameterSetName", JStr "default");
         ("isActive", JBool true);
         ("lastUpdated", JStr now);
         ("liquidationThreshold", JNum 0.25);
         ("bestsellerMultiplier", JNum 1.20);
         ("minVolumeThreshold", JNum 25.0);
         ("consistencyThreshold", JNum 0.75);
         ("analysisStartDate", JStr "2019-01-01");
         ("analysisEndDate", JStr "2019-06-23");
         ("coreDurationMonths", JNum 6);
         ("bestsellerDurationDays", JNum 90) ].


Definition getDefaultParameters (now : string) (r : HttpResult Json)
    : Outcome Json :=
  catchError r (of_ (getFallbackParameters now)).




Definition getCurrentParameters (now : string) (r : HttpResult Json)
    : Outcome Json :=
  catchError r (of_ (getFallbackParameters now)).

Definition getRecentParameterSets (limit : Z) (r : HttpResult Json)
    : Outcome Json :=
  catchError r (of_ (JArr [])).


End AlgorithmParametersService.

Module AlgorithmService.

(** [getDefaultParametersFallback()]; [yearAgo] and [today] are the two
    dates it derives from the clock. *)
Definition getDefaultParametersFallback (yearAgo today : string) : Json :=
  JObj [ ("liquidationThreshold", JNum 0.5);
         ("bestsellerMultiplier", JNum 2.0);
         ("minVolumeThreshold", JNum 10);
         ("consistencyThreshold", JNum 0.7);
         ("algorithmLabel", JStr "Default");
         ("analysisStartDate", JStr yearAgo);
         ("analysisEndDate", JStr today) ].

Definition getCurrentParameters (yearAgo today : string)
    (r : HttpResult Json) : Outcome Json :=
  catchError r (of_ (getDefaultParametersFallback yearAgo today)).

Definition getDefaultParameters (yearAgo today : string)
    (r : HttpResult Json) : Outcome Json :=
  catchError r (of_ (getDefaultParametersFallback yearAgo today)).



Definition runNoosAlgorithm (parameters : Json) (r : HttpResult Json)
    : Outcome Json :=
  catchError r (of_ (JObj [])).


Definition getRecentParameterSets (limit : Z) (r : HttpResult Json)
    : Outcome Json :=
  catchError r (of_ (JArr [])).


End AlgorithmService.

Module DashboardService.








Definition getTaskStats (r : HttpResult Json) : Outcome Json :=
  catchError r (of_ (JObj [])).


Definition runNoosAlgorithm (parameters : Json) (r : HttpResult Json)
    : Outcome Json :=
  catchError r rethrow.


Definition getTask (taskId : Z) (r : HttpResult Json) : Outcome Json :=
  catchError r (of_ (JObj [])).



End DashboardService.

Module TaskService.

Definition zeroTaskStats : Json :=
  JObj [ ("total", JNum 0); ("running", JNum 0); ("completed", JNum 0);
         ("failed", JNum 0); ("cancelled", JNum 0) ].


Definition getTask (taskId : Z) (r : HttpResult Json) : Outcome Json :=
  catchError r (of_ (JObj [])).

Definition getTaskStats (r : HttpResult Json) : Outcome Json :=
  catchError r (of_ zeroTaskStats).


Definition cancelTask (taskId : Z) (r : HttpResult Json) : Outcome Json :=
  catchError r (of_ (JObj [])).

End TaskService.

Module ReportsService.








End ReportsService.

Module NotificationService.

Definition emptyPage : Json :=
  JObj [ ("notifications", JArr []); ("totalCount", JNum 0);
         ("unreadCount", JNum 0); ("page", JNum 0); ("size", JNum 15);
         ("totalPages", JNum 0) ].

(** The request of [loadNotifications], before the service subscribes to
    it itself. *)
Definition loadNotifications (r : HttpResult Json) : Outcome Json :=
  catchError r (of_ emptyPage).

(** The requests of [markAsRead] and [markAllAsRead]. *)
Definition markAsRead (notificationId : string) (r : HttpResult Json)
    : Outcome Json :=
  catchError r (of_ JNull).

Definition markAllAsRead (r : HttpResult Json) : Outcome Json :=
  catchError r (of_ JNull).

End NotificationService.

(** The HTTP calls of [UploadService]. *)
Module UploadService.

Definition absent : FileStatus :=
  {| exists_ := false; count := 0; processing := None; failed := None;
     fs_progressPercentage := None; fs_progressMessage := None;
     errorSummary := None; fs_taskId := None |}.

Definition fallbackStatus : UploadStatus :=
  <["styles" := absent]>
    (<["stores" := absent]>
       (<["skus" := absent]> (<["sales" := absent]> ∅))).

(** [error.error && typeof error.error === 'string']. *)
Definition body_is_text (error : HttpErrorResponse) : bool :=
  match http_error error with
  | BodyText text => negb (String.eqb text "")
  | _ => false
  end.

Definition getUploadStatus (r : HttpResult UploadStatus)
    : Outcome UploadStatus :=
  catchError r (fun error =>
    if body_is_text error then Emits fallbackStatus
    else viaHandleError error).







Definition cancelTask (taskId : Z) (r : HttpResult Json) : Outcome Json :=
  catchError r viaHandleError.



End UploadService.

(** ** The status refresh of the upload component *)

Module UploadStatusRefresh.
Import UploadComponent.

(** The [fallbackData] literal of [fetchDataStatus]. *)
Definition fallbackData : UploadStatus :=
  <["styles" := {| exists_ := false; count := 0; processing := None;
                   failed := None; fs_progressPercentage := None;
                   fs_progressMessage := None; errorSummary := None;
                   fs_taskId := None |}]>
    (<["stores" := {| exists_ := false; count := 0; processing := None;
                      failed := None; fs_progressPercentage := None;
                      fs_progressMessage := None; errorSummary := None;
                      fs_taskId := None |}]>
       (<["skus" := {| exists_ := false; count := 0; processing := None;
                       failed := None; fs_progressPercentage := None;
                       fs_progressMessage := None; errorSummary := None;
                       fs_taskId := None |}]>
          (<["sales" := {| exists_ := false; count := 0; processing := None;
                           failed := None; fs_progressPercentage := None;
                           fs_progressMessage := None; errorSummary := None;
                           fs_taskId := None |}]> ∅))).

(** The page state [fetchDataStatus] writes: the files, [isLoading], and
    whether [lastRefreshTime] was set. *)
Record Page := {
  page_files : list UploadFile;
  isLoading : bool;
  lastRefreshTime_set : bool
}.

(** [fetchDataStatus()], once the status request has been answered. *)
Definition fetchDataStatus (r : HttpResult UploadStatus)
    (files : list UploadFile) : Page :=
  match UploadService.getUploadStatus r with
  | Emits data =>
    {| page_files := updateUploadFilesStatus data files;
       isLoading := false; lastRefreshTime_set := true |}
  | Throws _ =>
    {| page_files := updateUploadFilesStatus fallbackData files;
       isLoading := false; lastRefreshTime_set := false |}
  end.

End UploadStatusRefresh.

(** ** The sidebar state (SidebarStateService, MainLayoutComponent) *)

Module SidebarStateService.

(** The subject and the [sidebarCollapsed] item of the local storage. *)
Record State := {
  collapsedSubject : bool;
  stored : option string
}.

(** [String(collapsed)]. *)
Definition String_of_boolean (b : bool) : string :=
  if b then "true" else "false".

(** The constructor; [savedState] is the item read from the storage. *)
Definition construct (savedState : option string) : State :=
  {| collapsedSubject :=
       match savedState with
       | Some v => String.eqb v "true"
       | None => false
       end;
     stored := savedState |}.

Definition isCollapsed (s : State) : bool := collapsedSubject s.

(** [setCollapsed(collapsed)]: the subject is updated first; the write to
    the storage is not guarded, so when the storage refuses it the
    exception reaches the caller. The second component tells whether the
    call returned. *)
Definition setCollapsed (storage_writable : bool) (collapsed : bool)
    (s : State) : State * bool :=
  ({| collapsedSubject := collapsed;
      stored := if storage_writable
                then Some (String_of_boolean collapsed) else stored s |},
   storage_writable).

Definition toggle (storage_writable : bool) (s : State) : State * bool :=
  setCollapsed storage_writable (negb (isCollapsed s)) s.

End SidebarStateService.

Module MainLayoutComponent.

Record Layout := {
  sidebarCollapsed : bool;
  sidebarOpen : bool;
  sidebarStateService : SidebarStateService.State
}.

(** [innerWidth <= 1024]. *)
Definition isHandset (innerWidth : Z) : bool := (innerWidth <=? 1024)%Z.

(** The component as constructed, then [ngOnInit] up to its
    subscription. *)
Definition ngOnInit (service : SidebarStateService.State) : Layout :=
  {| sidebarCollapsed := SidebarStateService.isCollapsed service;
     sidebarOpen := false;
     sidebarStateService := service |}.

(** The callback of the breakpoint subscription of [ngOnInit]. *)
Definition on_breakpoint (handset : bool) (l : Layout) : Layout :=
  if handset then
    {| sidebarCollapsed := false; sidebarOpen := false;
       sidebarStateService := sidebarStateService l |}
  else
    {| sidebarCollapsed := sidebarCollapsed l; sidebarOpen := false;
       sidebarStateService := sidebarStateService l |}.

(** [toggleSidebar()]; on a desktop width, an exception of the storage
    leaves [sidebarOpen] as it was. *)
Definition toggleSidebar (innerWidth : Z) (storage_writable : bool)
    (l : Layout) : Layout :=
  if isHandset innerWidth then
    {| sidebarCollapsed := false; sidebarOpen := negb (sidebarOpen l);
       sidebarStateService := sidebarStateService l |}
  else
    let collapsed := negb (sidebarCollapsed l) in
    let (service, returned) :=
      SidebarStateService.setCollapsed storage_writable collapsed
        (sidebarStateService l) in
    {| sidebarCollapsed := collapsed;
       sidebarOpen := if returned then true else sidebarOpen l;
       sidebarStateService := service |}.

Definition closeSidebar (innerWidth : Z) (l : Layout) : Layout :=
  if isHandset innerWidth then
    {| sidebarCollapsed := false; sidebarOpen := false;
       sidebarStateService := sidebarStateService l |}
  else l.

(** [onResize(event)]; [innerWidth] is [event.target.innerWidth]. *)
Definition onResize (innerWidth : Z) (l : Layout) : Layout :=
  if isHandset innerWidth then
    {| sidebarCollapsed := false; sidebarOpen := false;
       sidebarStateService := sidebarStateService l |}
  else
    {| sidebarCollapsed := sidebarCollapsed l; sidebarOpen := false;
       sidebarStateService := sidebarStateService l |}.

End MainLayoutComponent.

(** ** The notification list (NotificationService, the notification
    panel and the header) *)

Module NotificationList.

(** ['success' | 'error' | 'warning' | 'info']. *)
Inductive Kind := success | error | warning | info.

(** A [Date]: [new Date()] at a clock reading, or [new Date(text)]. *)
Inductive DateValue :=
| DateNow (ms : Z)
| DateParsed (text : string).

Record Notification := {
  n_id : string;
  n_type : Kind;
  n_title : string;
  n_message : string;
  n_timestamp : DateValue;
  n_duration : option Z;
  n_isRead : option bool;
  n_category : option string;
  n_taskId : option Z;
  n_fileType : option string;
  n_fileName : option string
}.

Record BackendNotification := {
  b_id : Z;
  b_userId : string;
  b_title : string;
  b_message : string;
  b_type : string;
  b_category : string;
  b_taskId : option Z;
  b_fileType : option string;
  b_fileName : option string;
  b_isRead : bool;
  b_isGlobal : bool;
  b_createdDate : string
}.

(** The value of [notificationsSubject] and the id counter. *)
Record State := {
  notificationsSubject : list Notification;
  notificationId : Z
}.

Definition upper (c : ascii) : ascii :=
  let n := nat_of_ascii c in
  if ((97 <=? n) && (n <=? 122))%nat then ascii_of_nat (n - 32) else c.

(** [s.toUpperCase()], on ASCII text. *)
Fixpoint toUpperCase (s : string) : string :=
  match s with
  | EmptyString => EmptyString
  | String c s' => String (upper c) (toUpperCase s')
  end.

Definition mapBackendTypeToFrontend (backendType : string) : Kind :=
  let t := toUpperCase backendType in
  if String.eqb t "SUCCESS" then success
  else if String.eqb t "ERROR" then error
  else if String.eqb t "WARNING" then warning
  else if String.eqb t "INFO" then info
  else info.

Definition mapBackendToFrontend (backend : BackendNotification)
    : Notification :=
  {| n_id := "backend-" ++ JS.show (b_id backend);
     n_type := mapBackendTypeToFrontend (b_type backend);
     n_title := b_title backend;
     n_message := b_message backend;
     n_timestamp := DateParsed (b_createdDate backend);
     n_duration := Some 0;
     n_isRead := Some (b_isRead backend);
     n_category := Some (b_category backend);
     n_taskId := b_taskId backend;
     n_fileType := b_fileType backend;
     n_fileName := b_fileName backend |}.

(** [generateId()]; [now] is [Date.now()]. *)
Definition generateId (now : Z) (s : State) : string * State :=
  ("notification-" ++ JS.show (notificationId s + 1) ++ "-" ++ JS.show now,
   {| notificationsSubject := notificationsSubject s;
      notificationId := notificationId s + 1 |}).

(** A timer set by [setTimeout], with the id its callback removes. *)
Record RemovalTimer := {
  timer_delay : Z;
  timer_removes : string
}.

Definition addNotification (notification : Notification) (s : State)
    : State * option RemovalTimer :=
  ({| notificationsSubject := notificationsSubject s ++ [notification];
      notificationId := notificationId s |},
   match n_duration notification with
   | Some d =>
     if (0 <? d)%Z
     then Some {| timer_delay := d; timer_removes := n_id notification |}
     else None
   | None => None
   end).

(** The body shared by [success], [error], [warning] and [info];
    [default] is the default of their [duration] parameter, [now] the
    clock read by [generateId] and [stamp] the one read by [new Date()]. *)
Definition notify (kind : Kind) (default : Z) (title message : string)
    (duration : option Z) (now stamp : Z) (s : State)
    : State * option RemovalTimer :=
  let (newId, s') := generateId now s in
  addNotification
    {| n_id := newId; n_type := kind; n_title := title;
       n_message := message; n_timestamp := DateNow stamp;
       n_duration := Some match duration with
                          | Some d => d
                          | None => default
                          end;
       n_isRead := None; n_category := None; n_taskId := None;
       n_fileType := None; n_fileName := None |} s'.

Definition success_ := notify success 5000.
Definition error_ := notify error 0.
Definition warning_ := notify warning 5000.
Definition info_ := notify info 5000.

Definition removeNotification (id : string) (s : State) : State :=
  {| notificationsSubject :=
       List.filter (fun n => negb (String.eqb (n_id n) id))
                   (notificationsSubject s);
     notificationId := notificationId s |}.

Definition set_read (n : Notification) : Notification :=
  {| n_id := n_id n; n_type := n_type n; n_title := n_title n;
     n_message := n_message n; n_timestamp := n_timestamp n;
     n_duration := n_duration n; n_isRead := Some true;
     n_category := n_category n; n_taskId := n_taskId n;
     n_fileType := n_fileType n; n_fileName := n_fileName n |}.

(** [loadNotifications()], once the request has been answered; the
    response carries its [notifications] field, if it has one. An error
    is replaced by the empty page. *)
Definition loadNotifications
    (r : HttpResult (option (list BackendNotification))) (s : State)
    : State :=
  let response :=
    match r with
    | Ok body => body
    | Failed _ => Some []
    end in
  {| notificationsSubject :=
       match response with
       | Some notifications => map mapBackendToFrontend notifications
       | None => []
       end;
     notificationId := notificationId s |}.

(** [markAsRead(notificationId)], once the request has been answered: an
    error is replaced by [null] and the callback does not look at the
    response. *)
Definition markAsRead (notificationId' : string) (r : HttpResult Json)
    (s : State) : State :=
  {| notificationsSubject :=
       map (fun n => if String.eqb (n_id n) notificationId'
                     then set_read n else n)
           (notificationsSubject s);
     notificationId := notificationId s |}.

(** [markAllAsRead()], once the request has been answered; the response
    carries its [success] field. *)
Definition markAllAsRead (r : HttpResult bool) (s : State) : State :=
  match r with
  | Ok true =>
    {| notificationsSubject := map set_read (notificationsSubject s);
       notificationId := notificationId s |}
  | _ => s
  end.

(** [NotificationPanelComponent.removeNotification(id)]. *)
Definition panel_removeNotification (id : string) (r : HttpResult Json)
    (s : State) : State :=
  if Str.startsWith "backend-" id then markAsRead id r s
  else removeNotification id s.

(** The [notificationCount] of the header. *)
Definition notificationCount (s : State) : nat :=
  length (List.filter (fun n => negb (JS.truthy (n_isRead n)))
                      (notificationsSubject s)).

End NotificationList.

(** ** Dates sent to the backend *)

Module DateFormat.

(** [s.split('T')[0]]. *)
Fixpoint before_T (s : string) : string :=
  match s with
  | EmptyString => EmptyString
  | String c s' =>
    if Ascii.eqb c "T" then EmptyString else String c (before_T s')
  end.

Section FormatDate.
(** A [Date], with [toISOString], which raises on an invalid date. *)
Variable Date : Type.
Variable toISOString : Date -> option string.

(** [formatDate(date: Date | string)] of AlgorithmParametersService and
    of DashboardService; [None] when [toISOString] raises. *)
Definition formatDate (date : Date + string) : option string :=
  match date with
  | inr text => Some (before_T text)
  | inl d =>
    match toISOString d with
    | Some iso => Some (before_T iso)
    | None => None
    end
  end.

End FormatDate.

End DateFormat.

(** * Vocabulary of the properties *)

(** The snapshot has [exists = true] for the file type [key]. *)
Definition has_exists (statusData : UploadStatus) (key : string) : Prop :=
  exists st, statusData !! key = Some st /\ exists_ st = true.

(** The prerequisites of a file type, as the specification lists them:
    skus needs styles; sales needs styles, skus and stores; styles and
    stores need nothing. *)
Definition prerequisites (fileType : string) : list string :=
  if String.eqb fileType "skus" then ["styles"]
  else if String.eqb fileType "sales" then ["styles"; "skus"; "stores"]
  else [].

(** The prerequisites of [fileType] that the snapshot lacks, in order. *)
Definition missing (statusData : UploadStatus) (fileType : string)
    : list string :=
  List.filter (fun key => negb (exists_at statusData key))
              (prerequisites fileType).

Definition upload_timeout : JsError :=
  new_Error "Upload timeout - task is taking too long".

Definition download_timeout : JsError :=
  new_Error "Download timeout - task is taking too long".

(** The task is still being worked on. *)
Definition in_progress (task : Task) : Prop :=
  status task = "PENDING" \/ status task = "RUNNING".

(** A response that does not end the polling: an error of the request, or
    a task that is pending or running. *)
Definition non_terminal (r : HttpResult Task) : Prop :=
  match r with
  | Ok task => in_progress task
  | Failed _ => True
  end.

(** The progress event of a task in progress. *)
Definition upload_progress_event (task : Task) : UploadEvent :=
  {| progress := JS.or_zero (progressPercentage task);
     ev_task := Some task; completed := None |}.

Definition upload_completion_event (task : Task) : UploadEvent :=
  {| progress := 100; ev_task := Some task; completed := Some true |}.

Definition download_progress_event (task : Task) : DownloadEvent :=
  {| dl_progress := JS.or_zero (progressPercentage task);
     blob := None; filename := None |}.

Definition download_completion_event (fileType : string) (b : Blob)
    : DownloadEvent :=
  {| dl_progress := 100; blob := Some b;
     filename := Some (fileType ++ "_data.tsv") |}.

(** One round of the upload poller on a response that does not end it. *)
Definition upload_round (taskId : Z) (r : HttpResult Task)
    : list (Effect UploadEvent) :=
  match r with
  | Ok task => [Send (GetTaskStatus taskId);
                ObserverNext (upload_progress_event task);
                SetTimeout 2000]
  | Failed _ => [Send (GetTaskStatus taskId); SetTimeout 2000]
  end.

Definition download_round (taskId : Z) (r : HttpResult Task)
    : list (Effect DownloadEvent) :=
  match r with
  | Ok task => [Send (GetTaskStatus taskId);
                ObserverNext (download_progress_event task);
                SetTimeout 5000]
  | Failed _ => [Send (GetTaskStatus taskId); SetTimeout 5000]
  end.

(** The producer neither fails nor completes the sequence in [effects]. *)
Definition open_ended {E} (effects : list (Effect E)) : Prop :=
  Forall (fun eff => match eff with
                     | ObserverComplete | ObserverError _ => False
                     | _ => True
                     end) effects.

(** A task as the status endpoint returns it, for the examples. *)
Definition sample_task (st : string) (pct : option Z) : Task :=
  {| id := 7; taskType := "FILE_UPLOAD"; status := st;
     fileName := Some "data.tsv"; errorMessage := None;
     progressMessage := None; progressPercentage := pct;
     resultUrl := None |}.


(** The percentage of the task, when the response has one, lies between 0
    and 100. *)
Definition percentage_in_range (r : HttpResult Task) : Prop :=
  match r with
  | Ok task =>
    match progressPercentage task with
    | Some p => 0 <= p <= 100
    | None => True
    end
  | Failed _ => True
  end.

(** An upload event is the completion event of a completed task, or the
    progress event of a task, with the task's percentage or 0. *)
Definition well_formed_event (ev : UploadEvent) : Prop :=
  exists task, ev_task ev = Some task
  /\ ((completed ev = Some true /\ progress ev = 100
       /\ status task = "COMPLETED")
      \/ (completed ev = None
          /\ progress ev = match progressPercentage task with
                           | Some p => p
                           | None => 0
                           end)).

(** The number of status polls among the requests. *)
Definition status_polls (rs : list Request) : nat :=
  length (List.filter is_status_request rs).





(** ** Vocabulary of the further properties *)

(** The notifications the producer sends to its observer, in order. *)
Definition notifications {E} (effects : list (Effect E))
    : list (Notification E) :=
  omap (fun eff => match eff with
                   | ObserverNext ev => Some (Value ev)
                   | ObserverComplete => Some Completed
                   | ObserverError e => Some (Errored e)
                   | Send _ | SetTimeout _ => None
                   end) effects.

(** The notifications up to the first one that ends the sequence. *)
Fixpoint until_terminal {E} (l : list (Notification E))
    : list (Notification E) :=
  match l with
  | [] => []
  | Value ev :: rest => Value ev :: until_terminal rest
  | Completed :: _ => [Completed]
  | Errored e :: _ => [Errored e]
  end.

(** The producer has ended the sequence: its last effect completes or
    fails it. *)
Definition terminated {E} (effects : list (Effect E)) : Prop :=
  match last effects with
  | Some ObserverComplete | Some (ObserverError _) => True
  | _ => False
  end.

(** The sequences an upload can deliver: progress events of tasks in
    progress, then nothing yet, or the completion event and the
    completion, or one error. *)
Inductive upload_story : list (Notification UploadEvent) -> Prop :=
| upload_in_flight : upload_story []
| upload_completed task :
    status task = "COMPLETED" ->
    upload_story [Value (upload_completion_event task); Completed]
| upload_failed e : upload_story [Errored e]
| upload_progressing task rest :
    in_progress task -> upload_story rest ->
    upload_story (Value (upload_progress_event task) :: rest).

(** The sequences a download can deliver. *)
Inductive download_story (fileType : string)
    : list (Notification DownloadEvent) -> Prop :=
| download_in_flight : download_story fileType []
| download_completed b :
    download_story fileType
      [Value (download_completion_event fileType b); Completed]
| download_failed e : download_story fileType [Errored e]
| download_progressing task rest :
    in_progress task -> download_story fileType rest ->
    download_story fileType (Value (download_progress_event task) :: rest).

(** The time spent waiting on timers, in milliseconds. *)
Definition total_delay {E} (effects : list (Effect E)) : Z :=
  fold_right Z.add 0 (delays effects).

Definition is_result_request (r : Request) : bool :=
  match r with GetTaskResult _ => true | _ => false end.

(** The number of result downloads among the requests. *)
Definition result_fetches (rs : list Request) : nat :=
  length (List.filter is_result_request rs).

(** The event carries a file. *)
Definition has_blob (ev : DownloadEvent) : bool :=
  match blob ev with Some _ => true | None => false end.

(** The snapshot reports the file type as being processed. *)
Definition reported_processing (statusData : UploadStatus)
    (fileType : string) : bool :=
  match statusData !! fileType with
  | Some st => JS.truthy (processing st)
  | None => false
  end.

(** The snapshot says nothing that decides the status of the file type:
    it has no entry for it, or one that is neither processing, failed nor
    existing. *)
Definition undecided (statusData : UploadStatus) (fileType : string)
    : Prop :=
  match statusData !! fileType with
  | Some st => JS.truthy (processing st) = false
               /\ JS.truthy (failed st) = false /\ exists_ st = false
  | None => True
  end.

(** What the theme service publishes and what it has applied to the page
    agree with its signals. *)
Definition theme_consistent (s : ThemeService.State) : Prop :=
  ThemeService.themeStateSubject s
  = {| ThemeService.mode := ThemeService._themeMode s;
       ThemeService.isDark := ThemeService._isDark s;
       ThemeService.systemPrefersDark := ThemeService._systemPrefersDark s |}
  /\ ThemeService.data_theme s
     = Some (if ThemeService._isDark s then "dark" else "light")
  /\ ThemeService.meta_theme_color s
     = Some (if ThemeService._isDark s then "#1a1a1a" else "#ffffff").

(** The states of the theme service: the state after construction, and
    the states its public methods and its listener lead to. *)
Inductive theme_reachable : ThemeService.State -> Prop :=
| theme_constructed query_matches saved :
    theme_reachable (ThemeService.init query_matches saved)
| theme_set w m s :
    theme_reachable s -> theme_reachable (ThemeService.setTheme w m s)
| theme_toggled w s :
    theme_reachable s -> theme_reachable (ThemeService.toggleTheme w s)
| theme_cleared r w s :
    theme_reachable s ->
    theme_reachable (ThemeService.clearThemePreference r w s)
| theme_system_changed matches s :
    theme_reachable s ->
    theme_reachable (ThemeService.on_system_theme_change matches s).

(** * Properties *)

(** ** Dependency rules *)

Lemma exists_at_true statusData key :
  exists_at statusData key = true <-> has_exists statusData key.
Proof.
  unfold exists_at, has_exists. split.
  - destruct (statusData !! key) as [st|] eqn:Hk; [|discriminate].
    intros Hst. exists st. split; [reflexivity | exact Hst].
  - intros (st & Hk & Hst). rewrite Hk. exact Hst.
Qed.

Lemma exists_at_false statusData key :
  exists_at statusData key = false <-> ~ has_exists statusData key.
Proof.
  rewrite <- exists_at_true. destruct (exists_at statusData key); split;
    congruence.
Qed.

Lemma sales_missingDeps statusData :
  push_missing statusData "stores"
    (push_missing statusData "skus" (push_missing statusData "styles" []))
  = missing statusData "sales".
Proof.
  unfold missing, push_missing. simpl.
  destruct (exists_at statusData "styles"),
           (exists_at statusData "skus"),
           (exists_at statusData "stores"); reflexivity.
Qed.

Lemma checkUploadDependencies_sales statusData :
  checkUploadDependencies "sales" statusData =
  match missing statusData "sales" with
  | [] => {| enabled := true; message := "" |}
  | deps => {| enabled := false;
               message := "Upload " ++ JS.join ", " deps ++ " first" |}
  end.
Proof.
  unfold checkUploadDependencies. simpl String.eqb. simpl orb. cbv iota.
  rewrite sales_missingDeps.
  destruct (missing statusData "sales"); reflexivity.
Qed.

Lemma checkUploadDependencies_skus statusData :
  checkUploadDependencies "skus" statusData =
  if exists_at statusData "styles"
  then {| enabled := true; message := "" |}
  else {| enabled := false;
          message := "Upload styles first (styles → skus → sales)" |}.
Proof.
  unfold checkUploadDependencies. simpl String.eqb. simpl orb. cbv iota.
  destruct (exists_at statusData "styles"); reflexivity.
Qed.

(** The checker enables a file type exactly when none of its
    prerequisites is missing. *)
Lemma enabled_iff_no_missing fileType statusData :
  enabled (checkUploadDependencies fileType statusData) = true
  <-> missing statusData fileType = [].
Proof.
  destruct (String.eqb_spec fileType "sales") as [->|Hsales].
  { rewrite checkUploadDependencies_sales.
    destruct (missing statusData "sales"); simpl; split; congruence. }
  destruct (String.eqb_spec fileType "skus") as [->|Hskus].
  { rewrite checkUploadDependencies_skus. unfold missing. simpl.
    destruct (exists_at statusData "styles"); simpl; split; congruence. }
  unfold checkUploadDependencies, missing, prerequisites.
  apply String.eqb_neq in Hsales, Hskus. rewrite Hsales, Hskus.
  destruct (_ || _); simpl; split; reflexivity.
Qed.


(** C3. [checkUploadDependencies] is a total function of its two
    arguments. For styles and stores it enables the upload whatever the
    snapshot; for skus it enables it exactly when styles exist in the
    snapshot and otherwise returns the message that gives the upload order;
    for sales it enables it exactly when styles, skus and stores all exist
    and otherwise returns a message whose list is the missing
    prerequisites, joined by a comma and a space; with none of the three
    present the message lists all three. *)
Theorem checkUploadDependencies_rules (statusData : UploadStatus) :
  checkUploadDependencies "styles" statusData
    = {| enabled := true; message := "" |}
  /\ checkUploadDependencies "stores" statusData
    = {| enabled := true; message := "" |}
  /\ (enabled (checkUploadDependencies "skus" statusData) = true
      <-> has_exists statusData "styles")
  /\ (~ has_exists statusData "styles" ->
      checkUploadDependencies "skus" statusData
      = {| enabled := false;
           message := "Upload styles first (styles → skus → sales)" |})
  /\ (enabled (checkUploadDependencies "sales" statusData) = true
      <-> has_exists statusData "styles" /\ has_exists statusData "skus"
          /\ has_exists statusData "stores")
  /\ (enabled (checkUploadDependencies "sales" statusData) = false ->
      message (checkUploadDependencies "sales" statusData)
      = "Upload " ++ JS.join ", " (missing statusData "sales") ++ " first"
      /\ forall p, In p (missing statusData "sales") <->
                   In p ["styles"; "skus"; "stores"]
                   /\ ~ has_exists statusData p)
  /\ (~ has_exists statusData "styles" -> ~ has_exists statusData "skus" ->
      ~ has_exists statusData "stores" ->
      checkUploadDependencies "sales" statusData
      = {| enabled := false;
           message := "Upload styles, skus, stores first" |}).
Proof.
  repeat split.
  - rewrite checkUploadDependencies_skus. intros H.
    apply exists_at_true. destruct (exists_at statusData "styles");
      [reflexivity | discriminate].
  - rewrite checkUploadDependencies_skus. intros H.
    apply exists_at_true in H. rewrite H. reflexivity.
  - intros H. rewrite checkUploadDependencies_skus.
    apply exists_at_false in H. rewrite H. reflexivity.
  - apply exists_at_true. apply enabled_iff_no_missing in H.
    unfold missing in H. simpl in H.
    destruct (exists_at statusData "styles"); [reflexivity|discriminate].
  - apply exists_at_true. apply enabled_iff_no_missing in H.
    unfold missing in H. simpl in H.
    destruct (exists_at statusData "styles"); [|discriminate].
    destruct (exists_at statusData "skus"); [reflexivity|discriminate].
  - apply exists_at_true. apply enabled_iff_no_missing in H.
    unfold missing in H. simpl in H.
    destruct (exists_at statusData "styles"); [|discriminate].
    destruct (exists_at statusData "skus"); [|discriminate].
    destruct (exists_at statusData "stores"); [reflexivity|discriminate].
  - intros (H1 & H2 & H3). apply enabled_iff_no_missing.
    apply exists_at_true in H1, H2, H3. unfold missing. simpl.
    rewrite H1, H2, H3. reflexivity.
  - rewrite checkUploadDependencies_sales in *.
    destruct (missing statusData "sales"); [discriminate | reflexivity].
  - unfold missing in H0. apply filter_In in H0. apply H0.
  - unfold missing in H0. apply filter_In in H0 as [_ H0].
    apply exists_at_false. destruct (exists_at statusData p);
      [discriminate | reflexivity].
  - intros [Hin Hp]. unfold missing. apply filter_In. split; [exact Hin|].
    apply exists_at_false in Hp. rewrite Hp. reflexivity.
  - intros H1 H2 H3. rewrite checkUploadDependencies_sales.
    apply exists_at_false in H1, H2, H3. unfold missing. simpl.
    rewrite H1, H2, H3. reflexivity.
Qed.

(** ** The view state after a refresh *)

Section Refresh.
Import UploadComponent.

(** Before the dependency step no branch of the loop body leaves a file
    blocked: a file that was blocked and is neither processing, failed nor
    existing goes back to pending. *)
Lemma status_before_dependencies (statusData : UploadStatus) file :
  let file' :=
    match statusData !! uf_id file with
    | Some st =>
      if JS.truthy (processing st) then mark_processing st file
      else if JS.truthy (failed st) then mark_failed st file
      else if exists_ st then mark_success st file
      else pending_unless_error file
    | None => pending_unless_error file
    end in
  uf_status file' <> Blocked /\ uf_id file' = uf_id file.
Proof.
  assert (Hp : uf_status (pending_unless_error file) <> Blocked
               /\ uf_id (pending_unless_error file) = uf_id file).
  { unfold pending_unless_error.
    destruct (uf_status file) eqn:Hs; simpl; rewrite ?Hs;
      split; (discriminate || reflexivity). }
  simpl. destruct (statusData !! uf_id file) as [st|]; [|exact Hp].
  destruct (JS.truthy (processing st)); [split; [discriminate|reflexivity]|].
  destruct (JS.truthy (failed st)); [split; [discriminate|reflexivity]|].
  destruct (exists_ st); [split; [discriminate|reflexivity]|exact Hp].
Qed.

Lemma refresh_file_blocked (statusData : UploadStatus) file :
  uf_status (refresh_file statusData file) = Blocked
  <-> enabled (checkUploadDependencies (uf_id file) statusData) = false.
Proof.
  unfold refresh_file.
  pose proof (status_before_dependencies statusData file) as [Hnb _].
  simpl in Hnb. unfold apply_dependencies. simpl.
  destruct (enabled (checkUploadDependencies (uf_id file) statusData));
    simpl; split; congruence.
Qed.

Lemma refresh_file_id (statusData : UploadStatus) file :
  uf_id (refresh_file statusData file) = uf_id file.
Proof.
  unfold refresh_file, apply_dependencies. cbn [uf_id].
  apply (status_before_dependencies statusData file).
Qed.

Lemma refresh_file_canUpload (statusData : UploadStatus) file :
  canUpload (refresh_file statusData file)
  = enabled (checkUploadDependencies (uf_id file) statusData).
Proof. reflexivity. Qed.


End Refresh.

(** ** The polling loops: unfolding and traces *)

Lemma in_progress_tests task :
  in_progress task ->
  String.eqb (status task) "COMPLETED" = false
  /\ String.eqb (status task) "FAILED" = false
  /\ String.eqb (status task) "CANCELLED" = false
  /\ String.eqb (status task) "PENDING" || String.eqb (status task) "RUNNING"
     = true.
Proof. intros [H|H]; rewrite H; repeat split. Qed.

Lemma pollUpload_at_ceiling taskId fileType rs n :
  (upload_maxPolls <= n)%nat ->
  pollUploadTaskStatus taskId fileType rs n = [ObserverError upload_timeout].
Proof.
  intros H. apply Nat.leb_le in H.
  destruct rs; cbn [pollUploadTaskStatus]; rewrite H; reflexivity.
Qed.

Lemma pollUpload_in_flight taskId fileType n :
  (n < upload_maxPolls)%nat ->
  pollUploadTaskStatus taskId fileType [] n = [Send (GetTaskStatus taskId)].
Proof.
  intros H. apply Nat.leb_gt in H.
  cbn [pollUploadTaskStatus]. rewrite H. reflexivity.
Qed.

Lemma pollUpload_non_terminal taskId fileType r rest n :
  (n < upload_maxPolls)%nat -> non_terminal r ->
  pollUploadTaskStatus taskId fileType (r :: rest) n
  = (upload_round taskId r
     ++ pollUploadTaskStatus taskId fileType rest (n + 1))%list.
Proof.
  intros H Hr. apply Nat.leb_gt in H.
  cbn [pollUploadTaskStatus]. rewrite H.
  destruct r as [task|e]; [|reflexivity].
  destruct (in_progress_tests task Hr) as (-> & -> & -> & ->). reflexivity.
Qed.

Lemma pollDownload_at_ceiling taskId fileType rs result n :
  (download_maxPolls <= n)%nat ->
  pollTaskStatus taskId fileType rs result n
  = [ObserverError download_timeout].
Proof.
  intros H. apply Nat.leb_le in H.
  destruct rs; cbn [pollTaskStatus]; rewrite H; reflexivity.
Qed.

Lemma pollDownload_in_flight taskId fileType result n :
  (n < download_maxPolls)%nat ->
  pollTaskStatus taskId fileType [] result n = [Send (GetTaskStatus taskId)].
Proof.
  intros H. apply Nat.leb_gt in H.
  cbn [pollTaskStatus]. rewrite H. reflexivity.
Qed.

Lemma pollDownload_non_terminal taskId fileType r rest result n :
  (n < download_maxPolls)%nat -> non_terminal r ->
  pollTaskStatus taskId fileType (r :: rest) result n
  = (download_round taskId r
     ++ pollTaskStatus taskId fileType rest result (n + 1))%list.
Proof.
  intros H Hr. apply Nat.leb_gt in H.
  cbn [pollTaskStatus]. rewrite H.
  destruct r as [task|e]; [|reflexivity].
  destruct (in_progress_tests task Hr) as (-> & -> & -> & ->). reflexivity.
Qed.

(** The whole trace of the upload poller on responses that never end it:
    one round per response up to the ceiling, then the timeout error if
    the ceiling is reached and a request in flight otherwise. *)
Lemma pollUpload_rounds taskId fileType rs :
  Forall non_terminal rs ->
  forall n,
  pollUploadTaskStatus taskId fileType rs n
  = (concat (map (upload_round taskId) (take (upload_maxPolls - n) rs))
     ++ (if (upload_maxPolls - n <=? length rs)%nat
         then [ObserverError upload_timeout]
         else [Send (GetTaskStatus taskId)]))%list.
Proof.
  induction 1 as [|r rest Hr Hrest IH]; intros n.
  - destruct (Nat.le_gt_cases upload_maxPolls n) as [Hn|Hn].
    + rewrite pollUpload_at_ceiling by exact Hn.
      replace (upload_maxPolls - n)%nat with 0%nat by lia. reflexivity.
    + rewrite pollUpload_in_flight by exact Hn.
      rewrite take_nil. simpl length.
      destruct (Nat.leb_spec (upload_maxPolls - n) 0); [lia|reflexivity].
  - destruct (Nat.le_gt_cases upload_maxPolls n) as [Hn|Hn].
    + rewrite pollUpload_at_ceiling by exact Hn.
      replace (upload_maxPolls - n)%nat with 0%nat by lia. reflexivity.
    + rewrite pollUpload_non_terminal by assumption. rewrite IH.
      replace (upload_maxPolls - n)%nat
        with (S (upload_maxPolls - (n + 1)))%nat by lia.
      cbn [take map concat length]. rewrite <- app_assoc.
      reflexivity.
Qed.

Lemma pollDownload_rounds taskId fileType rs result :
  Forall non_terminal rs ->
  forall n,
  pollTaskStatus taskId fileType rs result n
  = (concat (map (download_round taskId) (take (download_maxPolls - n) rs))
     ++ (if (download_maxPolls - n <=? length rs)%nat
         then [ObserverError download_timeout]
         else [Send (GetTaskStatus taskId)]))%list.
Proof.
  induction 1 as [|r rest Hr Hrest IH]; intros n.
  - destruct (Nat.le_gt_cases download_maxPolls n) as [Hn|Hn].
    + rewrite pollDownload_at_ceiling by exact Hn.
      replace (download_maxPolls - n)%nat with 0%nat by lia. reflexivity.
    + rewrite pollDownload_in_flight by exact Hn.
      rewrite take_nil. simpl length.
      destruct (Nat.leb_spec (download_maxPolls - n) 0); [lia|reflexivity].
  - destruct (Nat.le_gt_cases download_maxPolls n) as [Hn|Hn].
    + rewrite pollDownload_at_ceiling by exact Hn.
      replace (download_maxPolls - n)%nat with 0%nat by lia. reflexivity.
    + rewrite pollDownload_non_terminal by assumption. rewrite IH.
      replace (download_maxPolls - n)%nat
        with (S (download_maxPolls - (n + 1)))%nat by lia.
      cbn [take map concat length]. rewrite <- app_assoc.
      reflexivity.
Qed.

(** ** What the traces contain *)

Lemma requests_app {E} (l1 l2 : list (Effect E)) :
  requests (l1 ++ l2) = (requests l1 ++ requests l2)%list.
Proof. apply omap_app. Qed.

Lemma emitted_app {E} (l1 l2 : list (Effect E)) :
  emitted (l1 ++ l2) = (emitted l1 ++ emitted l2)%list.
Proof. apply omap_app. Qed.

Lemma delays_app {E} (l1 l2 : list (Effect E)) :
  delays (l1 ++ l2) = (delays l1 ++ delays l2)%list.
Proof. apply omap_app. Qed.

Lemma requests_upload_rounds taskId rs :
  requests (concat (map (upload_round taskId) rs))
  = replicate (length rs) (GetTaskStatus taskId).
Proof.
  induction rs as [|r rs IH]; [reflexivity|].
  cbn [map concat length replicate]. rewrite requests_app, IH.
  destruct r; reflexivity.
Qed.

Lemma requests_download_rounds taskId rs :
  requests (concat (map (download_round taskId) rs))
  = replicate (length rs) (GetTaskStatus taskId).
Proof.
  induction rs as [|r rs IH]; [reflexivity|].
  cbn [map concat length replicate]. rewrite requests_app, IH.
  destruct r; reflexivity.
Qed.

Lemma open_ended_app {E} (l1 l2 : list (Effect E)) :
  open_ended l1 -> open_ended l2 -> open_ended (l1 ++ l2).
Proof. unfold open_ended. intros. apply Forall_app. split; assumption. Qed.

Lemma open_ended_upload_rounds taskId rs :
  open_ended (concat (map (upload_round taskId) rs)).
Proof.
  induction rs as [|r rs IH]; [constructor|].
  cbn [map concat]. apply open_ended_app; [|exact IH].
  destruct r; repeat constructor.
Qed.

Lemma open_ended_download_rounds taskId rs :
  open_ended (concat (map (download_round taskId) rs)).
Proof.
  induction rs as [|r rs IH]; [constructor|].
  cbn [map concat]. apply open_ended_app; [|exact IH].
  destruct r; repeat constructor.
Qed.

Lemma observe_app {E} (l1 l2 : list (Effect E)) s :
  Rx.observe (l1 ++ l2) s = Rx.observe l2 (Rx.observe l1 s).
Proof. apply fold_left_app. Qed.

(** A subscriber that is not stopped receives every value of an
    open-ended run and is still not stopped. *)
Lemma observe_open_ended {E} (effects : list (Effect E)) :
  open_ended effects ->
  forall s, isStopped s = false ->
  Rx.observe effects s
  = {| isStopped := false;
       received := received s ++ map Value (emitted effects) |}.
Proof.
  induction 1 as [|eff effects Heff _ IH]; intros s Hs.
  - cbn. rewrite app_nil_r. destruct s; simpl in *; congruence.
  - cbn [Rx.observe fold_left]. fold (Rx.observe effects (Rx.notify s eff)).
    destruct eff as [r|ms|ev| |e]; try contradiction; cbn [Rx.notify].
    + rewrite IH by exact Hs. reflexivity.
    + rewrite IH by exact Hs. reflexivity.
    + unfold Rx.next. rewrite Hs. rewrite IH by reflexivity.
      cbn. rewrite <- app_assoc. reflexivity.
Qed.

(** A stopped subscriber receives nothing more. *)
Lemma observe_stopped {E} (effects : list (Effect E)) :
  forall s, isStopped s = true -> Rx.observe effects s = s.
Proof.
  induction effects as [|eff effects IH]; intros s Hs; [reflexivity|].
  cbn [Rx.observe fold_left]. fold (Rx.observe effects (Rx.notify s eff)).
  assert (Hn : Rx.notify s eff = s).
  { destruct eff; cbn; unfold Rx.next, Rx.complete, Rx.error;
      rewrite ?Hs; reflexivity. }
  rewrite Hn. apply IH, Hs.
Qed.

Lemma upload_ceiling_trace taskId fileType rs :
  Forall non_terminal rs -> (upload_maxPolls <= length rs)%nat ->
  pollUploadTaskStatus taskId fileType rs 0
  = (concat (map (upload_round taskId) (take upload_maxPolls rs))
     ++ [ObserverError upload_timeout])%list.
Proof.
  intros Hnt Hlen. rewrite (pollUpload_rounds _ _ _ Hnt), Nat.sub_0_r.
  destruct (Nat.leb_spec upload_maxPolls (length rs)); [reflexivity|lia].
Qed.

Lemma download_ceiling_trace taskId fileType rs result :
  Forall non_terminal rs -> (download_maxPolls <= length rs)%nat ->
  pollTaskStatus taskId fileType rs result 0
  = (concat (map (download_round taskId) (take download_maxPolls rs))
     ++ [ObserverError download_timeout])%list.
Proof.
  intros Hnt Hlen. rewrite (pollDownload_rounds _ _ _ _ Hnt), Nat.sub_0_r.
  destruct (Nat.leb_spec download_maxPolls (length rs)); [reflexivity|lia].
Qed.

(** After rounds that neither fail nor complete, an error reaches the
    subscriber and stops it. *)
Lemma subscribed_rounds_then_error {E} (rounds : list (Effect E)) e :
  open_ended rounds ->
  Rx.subscribed (rounds ++ [ObserverError e])
  = {| isStopped := true;
       received := map Value (emitted (rounds ++ [ObserverError e]))
                   ++ [Errored e] |}.
Proof.
  intros Hopen. unfold Rx.subscribed. rewrite observe_app.
  rewrite (observe_open_ended _ Hopen) by reflexivity.
  rewrite emitted_app. cbn [emitted omap]. rewrite app_nil_r.
  reflexivity.
Qed.

Lemma upload_ceiling_subscriber taskId fileType rs :
  Forall non_terminal rs -> (upload_maxPolls <= length rs)%nat ->
  Rx.subscribed (pollUploadTaskStatus taskId fileType rs 0)
  = {| isStopped := true;
       received :=
         map Value (emitted (pollUploadTaskStatus taskId fileType rs 0))
         ++ [Errored upload_timeout] |}.
Proof.
  intros Hnt Hlen. rewrite (upload_ceiling_trace _ _ _ Hnt Hlen).
  apply subscribed_rounds_then_error, open_ended_upload_rounds.
Qed.

Lemma download_ceiling_subscriber taskId fileType rs result :
  Forall non_terminal rs -> (download_maxPolls <= length rs)%nat ->
  Rx.subscribed (pollTaskStatus taskId fileType rs result 0)
  = {| isStopped := true;
       received :=
         map Value (emitted (pollTaskStatus taskId fileType rs result 0))
         ++ [Errored download_timeout] |}.
Proof.
  intros Hnt Hlen. rewrite (download_ceiling_trace _ _ _ _ Hnt Hlen).
  apply subscribed_rounds_then_error, open_ended_download_rounds.
Qed.

Lemma upload_ceiling_requests taskId fileType rs :
  Forall non_terminal rs -> (upload_maxPolls <= length rs)%nat ->
  requests (pollUploadTaskStatus taskId fileType rs 0)
  = replicate upload_maxPolls (GetTaskStatus taskId).
Proof.
  intros Hnt Hlen. rewrite (upload_ceiling_trace _ _ _ Hnt Hlen).
  rewrite requests_app, requests_upload_rounds, length_take.
  rewrite Nat.min_l by exact Hlen. apply app_nil_r.
Qed.

Lemma download_ceiling_requests taskId fileType rs result :
  Forall non_terminal rs -> (download_maxPolls <= length rs)%nat ->
  requests (pollTaskStatus taskId fileType rs result 0)
  = replicate download_maxPolls (GetTaskStatus taskId).
Proof.
  intros Hnt Hlen. rewrite (download_ceiling_trace _ _ _ _ Hnt Hlen).
  rewrite requests_app, requests_download_rounds, length_take.
  rewrite Nat.min_l by exact Hlen. apply app_nil_r.
Qed.

(** C1. When no response ends the polling (each is an error of the status
    request or a pending or running task), the upload poller issues
    exactly 240 status requests and the download poller exactly 120; the
    effect that follows the last round is the timeout error, which the
    subscriber receives after the progress events, and nothing follows
    it: no request, no timer. With fewer responses than the ceiling no
    error is raised. *)
Theorem polling_times_out_at_ceiling (taskId : Z) (fileType : string)
    (rs : list (HttpResult Task)) (result : option (HttpResult Blob))
    (Hnt : Forall non_terminal rs) :
  upload_maxPolls = 240%nat /\ download_maxPolls = 120%nat
  /\ ((upload_maxPolls <= length rs)%nat ->
      let tr := pollUploadTaskStatus taskId fileType rs 0 in
      tr = (concat (map (upload_round taskId) (take upload_maxPolls rs))
            ++ [ObserverError upload_timeout])%list
      /\ requests tr = replicate upload_maxPolls (GetTaskStatus taskId)
      /\ Rx.subscribed tr
         = {| isStopped := true;
              received := map Value (emitted tr)
                          ++ [Errored upload_timeout] |})
  /\ ((length rs < upload_maxPolls)%nat ->
      open_ended (pollUploadTaskStatus taskId fileType rs 0))
  /\ ((download_maxPolls <= length rs)%nat ->
      let tr := pollTaskStatus taskId fileType rs result 0 in
      tr = (concat (map (download_round taskId) (take download_maxPolls rs))
            ++ [ObserverError download_timeout])%list
      /\ requests tr = replicate download_maxPolls (GetTaskStatus taskId)
      /\ Rx.subscribed tr
         = {| isStopped := true;
              received := map Value (emitted tr)
                          ++ [Errored download_timeout] |})
  /\ ((length rs < download_maxPolls)%nat ->
      open_ended (pollTaskStatus taskId fileType rs result 0)).
Proof.
  split; [reflexivity|]. split; [reflexivity|].
  split; [|split; [|split]].
  - intros Hlen tr. subst tr. split; [|split].
    + apply upload_ceiling_trace; assumption.
    + apply upload_ceiling_requests; assumption.
    + apply upload_ceiling_subscriber; assumption.
  - intros Hlen. rewrite (pollUpload_rounds _ _ _ Hnt).
    rewrite Nat.sub_0_r.
    destruct (Nat.leb_spec upload_maxPolls (length rs)) as [Hle|_]; [lia|].
    apply open_ended_app; [apply open_ended_upload_rounds|].
    repeat constructor.
  - intros Hlen tr. subst tr. split; [|split].
    + apply download_ceiling_trace; assumption.
    + apply download_ceiling_requests; assumption.
    + apply download_ceiling_subscriber; assumption.
  - intros Hlen. rewrite (pollDownload_rounds _ _ _ _ Hnt).
    rewrite Nat.sub_0_r.
    destruct (Nat.leb_spec download_maxPolls (length rs)) as [Hle|_]; [lia|].
    apply open_ended_app; [apply open_ended_download_rounds|].
    repeat constructor.
Qed.

Lemma polling_times_out_at_ceiling_witness :
  Forall non_terminal (replicate 240 (Ok (sample_task "RUNNING" (Some 40))))
  /\ requests (pollUploadTaskStatus 7 "styles"
                 (replicate 240 (Ok (sample_task "RUNNING" (Some 40)))) 0)
     = replicate 240 (GetTaskStatus 7)
  /\ requests (pollTaskStatus 7 "styles"
                 (replicate 240 (Ok (sample_task "RUNNING" (Some 40))))
                 None 0)
     = replicate 120 (GetTaskStatus 7).
Proof.
  assert (H : Forall non_terminal
                (replicate 240 (Ok (sample_task "RUNNING" (Some 40))))).
  { apply Forall_replicate. right. reflexivity. }
  split; [exact H|].
  destruct (polling_times_out_at_ceiling 7 "styles" _ None H)
    as (_ & _ & Hup & _ & Hdown & _).
  split.
  - apply Hup. rewrite length_replicate. unfold upload_maxPolls. lia.
  - apply Hdown. rewrite length_replicate. unfold download_maxPolls. lia.
Defined.

(** ** Reactions to one status *)




(** ** Errors of a status request *)







(** ** The range of the progress values *)

Lemma or_zero_in_range task :
  percentage_in_range (Ok task) ->
  0 <= JS.or_zero (progressPercentage task) <= 100.
Proof.
  unfold percentage_in_range, JS.or_zero.
  destruct (progressPercentage task); lia.
Qed.

Lemma pollUpload_events (P : UploadEvent -> Prop) taskId fileType rs :
  (forall task, In (Ok task) rs -> status task = "COMPLETED" ->
                P (upload_completion_event task)) ->
  (forall task, In (Ok task) rs -> P (upload_progress_event task)) ->
  forall n, Forall P (emitted (pollUploadTaskStatus taskId fileType rs n)).
Proof.
  induction rs as [|r rest IH]; intros Hc Hp n.
  - cbn [pollUploadTaskStatus]. destruct (_ <=? _)%nat; constructor.
  - cbn [pollUploadTaskStatus]. destruct (_ <=? _)%nat; [constructor|].
    assert (IH' : forall m, Forall P
              (emitted (pollUploadTaskStatus taskId fileType rest m))).
    { apply IH; intros; [apply Hc | apply Hp]; try right; assumption. }
    destruct r as [task|e]; [|apply IH'].
    destruct (String.eqb_spec (status task) "COMPLETED") as [Hs|_].
    { repeat constructor. apply Hc; [left; reflexivity | exact Hs]. }
    destruct (String.eqb (status task) "FAILED"); [constructor|].
    destruct (String.eqb (status task) "CANCELLED"); [constructor|].
    destruct (_ || _); [|constructor].
    cbn. constructor; [|apply IH']. apply Hp. left. reflexivity.
Qed.

Lemma pollDownload_events (P : DownloadEvent -> Prop) taskId fileType rs
    result :
  (forall b, P (download_completion_event fileType b)) ->
  (forall task, In (Ok task) rs -> P (download_progress_event task)) ->
  forall n,
  Forall P (emitted (pollTaskStatus taskId fileType rs result n)).
Proof.
  induction rs as [|r rest IH]; intros Hc Hp n.
  - cbn [pollTaskStatus]. destruct (_ <=? _)%nat; constructor.
  - cbn [pollTaskStatus]. destruct (_ <=? _)%nat; [constructor|].
    assert (IH' : forall m, Forall P
              (emitted (pollTaskStatus taskId fileType rest result m))).
    { apply IH; intros; [apply Hc | apply Hp]; try right; assumption. }
    destruct r as [task|e]; [|apply IH'].
    destruct (String.eqb (status task) "COMPLETED").
    { destruct result as [[b|e]|]; repeat constructor. apply Hc. }
    destruct (String.eqb (status task) "FAILED"); [constructor|].
    destruct (String.eqb (status task) "CANCELLED"); [constructor|].
    destruct (_ || _); [|constructor].
    cbn. constructor; [|apply IH']. apply Hp. left. reflexivity.
Qed.

(** C9, as stated, fails: the pollers pass the percentage of the task on
    as it is, so a task reported at 150 percent is emitted with progress
    150. *)
Lemma progress_outside_range_is_emitted :
  let file := {| name := "data.tsv"; size := 1024 |} in
  let started := sample_task "PENDING" None in
  let reported := sample_task "RUNNING" (Some 150) in
  emitted (uploadFileAsync "styles" (Some file) (Some (Ok started))
             [Ok reported])
  = [{| progress := 150; ev_task := Some reported; completed := None |}]
  /\ ~ (0 <= 150 <= 100).
Proof. split; [reflexivity | lia]. Qed.

(** C9, amended. When every percentage the status endpoint reports lies
    between 0 and 100, every event of the upload sequence, and of the
    download sequence, carries a progress between 0 and 100. Whatever the
    endpoint reports, an upload event is either the completion event, with
    progress exactly 100, or the progress event of a task, with the task's
    percentage, and 0 when the task has none. *)
Theorem progress_in_range (fileType : string) (file : option File)
    (submit : option (HttpResult Task)) (rs : list (HttpResult Task))
    (result : option (HttpResult Blob))
    (Hrange : Forall percentage_in_range rs) :
  Forall (fun ev => 0 <= progress ev <= 100)
         (emitted (uploadFileAsync fileType file submit rs))
  /\ Forall well_formed_event
            (emitted (uploadFileAsync fileType file submit rs))
  /\ Forall (fun ev => 0 <= dl_progress ev <= 100)
            (emitted (downloadDataFileAsync fileType submit rs result)).
Proof.
  assert (Hin : forall task, In (Ok task) rs ->
                             percentage_in_range (Ok task)).
  { intros task Ht. rewrite Forall_forall in Hrange. apply Hrange.
    apply list_elem_of_In. exact Ht. }
  split; [|split].
  - unfold uploadFileAsync. destruct file; [|constructor].
    destruct submit as [[task|e]|]; try constructor.
    destruct (String.eqb (status task) "FAILED"); [constructor|].
    apply pollUpload_events.
    + intros; cbn; lia.
    + intros t Ht. apply or_zero_in_range, Hin, Ht.
  - unfold uploadFileAsync. destruct file; [|constructor].
    destruct submit as [[task|e]|]; try constructor.
    destruct (String.eqb (status task) "FAILED"); [constructor|].
    apply pollUpload_events.
    + intros t _ Hs. exists t. split; [reflexivity|]. left. auto.
    + intros t _. exists t. split; [reflexivity|]. right. auto.
  - unfold downloadDataFileAsync.
    destruct submit as [[task|e]|]; try constructor.
    destruct (String.eqb (status task) "FAILED"); [constructor|].
    apply pollDownload_events.
    + intros; cbn; lia.
    + intros t Ht. apply or_zero_in_range, Hin, Ht.
Qed.

Lemma progress_in_range_witness :
  Forall percentage_in_range
    [Ok (sample_task "RUNNING" (Some 40)); Ok (sample_task "RUNNING" None);
     Ok (sample_task "COMPLETED" (Some 100))]
  /\ Forall (fun ev => 0 <= progress ev <= 100)
       (emitted (uploadFileAsync "styles"
                   (Some {| name := "data.tsv"; size := 1024 |})
                   (Some (Ok (sample_task "PENDING" None)))
                   [Ok (sample_task "RUNNING" (Some 40));
                    Ok (sample_task "RUNNING" None);
                    Ok (sample_task "COMPLETED" (Some 100))])).
Proof.
  assert (H : Forall percentage_in_range
    [Ok (sample_task "RUNNING" (Some 40)); Ok (sample_task "RUNNING" None);
     Ok (sample_task "COMPLETED" (Some 100))]).
  { repeat constructor; simpl; lia. }
  split; [exact H|].
  apply (progress_in_range "styles"
           (Some {| name := "data.tsv"; size := 1024 |})
           (Some (Ok (sample_task "PENDING" None))) _ None H).
Defined.

(** ** Unsubscribing *)





Lemma pollUpload_requests taskId fileType rs :
  forall n, Forall (fun r => r = GetTaskStatus taskId)
                   (requests (pollUploadTaskStatus taskId fileType rs n)).
Proof.
  induction rs as [|r rest IH]; intros n.
  - cbn [pollUploadTaskStatus]. destruct (_ <=? _)%nat; repeat constructor.
  - cbn [pollUploadTaskStatus]. destruct (_ <=? _)%nat; [constructor|].
    destruct r as [task|e]; [|cbn; constructor; [reflexivity|apply IH]].
    destruct (String.eqb (status task) "COMPLETED"); [repeat constructor|].
    destruct (String.eqb (status task) "FAILED"); [repeat constructor|].
    destruct (String.eqb (status task) "CANCELLED"); [repeat constructor|].
    destruct (_ || _); [|repeat constructor].
    cbn. constructor; [reflexivity|apply IH].
Qed.







(** ** Validation before an upload *)

Lemma includes_In l x : Validation.includes l x = true <-> In x l.
Proof.
  unfold Validation.includes. rewrite existsb_exists. split.
  - intros (y & Hy & Heq). apply String.eqb_eq in Heq. subst. exact Hy.
  - intros Hx. exists x. split; [exact Hx | apply String.eqb_refl].
Qed.

Section UploadValidation.
Import UploadComponent Validation.

(** The extension is compared in lower case, and a name without a dot is
    its own extension. *)
Example extension_ignores_case :
  isValidFileType {| name := "DATA.TSV"; size := 1 |} = true
  /\ fileExtension {| name := "archive.tar.Txt"; size := 1 |} = ".txt"
  /\ isValidFileType {| name := "tsv"; size := 1 |} = false.
Proof. repeat split. Qed.

(** The ceiling counts a megabyte as 1024 * 1024 bytes: 51 million bytes
    are within it. *)
Example ceiling_in_binary_megabytes :
  isValidFileSize {| name := "data.tsv"; size := 51 * 1000 * 1000 |}
    default_maxSizeMB = true
  /\ isValidFileSize {| name := "data.tsv"; size := 52428800 |}
       default_maxSizeMB = true
  /\ isValidFileSize {| name := "data.tsv"; size := 52428801 |}
       default_maxSizeMB = false.
Proof. repeat split. Qed.

(** C5. An absent file fails the upload before any request is built. In
    the component, with no file selected, or with a selected file whose
    extension (the lower-cased name from its last dot on) is not .tsv or
    .txt, or whose size exceeds 50 * 1024 * 1024 bytes, [uploadFile] logs
    the validation failure, sends nothing and leaves the component as it
    was; a file that passes both checks is submitted with one upload
    request. data.csv fails the type check, a file of 51 * 1024 * 1024
    bytes fails the size check at the default ceiling, and data.tsv of
    10 * 1024 * 1024 bytes passes both. *)
Theorem invalid_upload_sends_nothing (c : Component) (fileType : string)
    (submit : option (HttpResult Task)) (rs : list (HttpResult Task)) :
  (uploadFileAsync fileType None submit rs
     = [ObserverError (new_Error "No file provided for upload")]
   /\ requests (uploadFileAsync fileType None submit rs) = [])
  /\ (selectedFile c = None ->
      sent (snd (uploadFile c)) = [] /\ fst (uploadFile c) = c)
  /\ (forall file, selectedFile c = Some file ->
      ~ In (fileExtension file) [".tsv"; ".txt"]
      \/ size file > default_maxSizeMB * 1024 * 1024 ->
      sent (snd (uploadFile c)) = [] /\ fst (uploadFile c) = c)
  /\ (forall file, selectedFile c = Some file ->
      selectedFileType c <> "" ->
      In (fileExtension file) [".tsv"; ".txt"] ->
      size file <= default_maxSizeMB * 1024 * 1024 ->
      sent (snd (uploadFile c)) = [PostUploadAsync (selectedFileType c)]
      /\ fst (uploadFile c) = closeUploadModal c)
  /\ default_maxSizeMB * 1024 * 1024 = 52428800
  /\ isValidFileType {| name := "data.csv"; size := 10 * 1024 * 1024 |}
     = false
  /\ isValidFileSize {| name := "data.tsv"; size := 51 * 1024 * 1024 |}
       default_maxSizeMB = false
  /\ isValidFileType {| name := "data.tsv"; size := 10 * 1024 * 1024 |}
     = true
  /\ isValidFileSize {| name := "data.tsv"; size := 10 * 1024 * 1024 |}
       default_maxSizeMB = true.
Proof.
  split; [split; reflexivity|].
  split.
  { intros Hnone. unfold uploadFile. rewrite Hnone. split; reflexivity. }
  split.
  { intros file Hfile Hbad. unfold uploadFile. rewrite Hfile.
    destruct (String.eqb (selectedFileType c) ""); [split; reflexivity|].
    destruct (isValidFileType file) eqn:Htype; [|split; reflexivity].
    destruct (isValidFileSize file default_maxSizeMB) eqn:Hsize;
      [|split; reflexivity].
    exfalso. destruct Hbad as [Hext|Hbig].
    - apply Hext. apply includes_In. exact Htype.
    - unfold isValidFileSize in Hsize. apply Z.leb_le in Hsize. lia. }
  split.
  { intros file Hfile Htype Hext Hsize. unfold uploadFile. rewrite Hfile.
    apply String.eqb_neq in Htype. rewrite Htype.
    assert (Ht : isValidFileType file = true)
      by (apply includes_In; exact Hext).
    assert (Hs : isValidFileSize file default_maxSizeMB = true)
      by (apply Z.leb_le; exact Hsize).
    rewrite Ht, Hs. split; reflexivity. }
  repeat split.
Qed.

End UploadValidation.

(** ** The theme store and the system preference *)

Section Theme.
Import ThemeService.

Lemma listener_keeps_mode matches s :
  _themeMode (on_system_theme_change matches s) = _themeMode s.
Proof.
  unfold on_system_theme_change.
  destruct (ThemeMode_eqb _ system); reflexivity.
Qed.

Lemma listener_keeps_preference matches s :
  saved_preference (on_system_theme_change matches s) = saved_preference s.
Proof.
  unfold on_system_theme_change.
  destruct (ThemeMode_eqb _ system); reflexivity.
Qed.

Lemma listener_sets_systemPrefersDark matches s :
  _systemPrefersDark (on_system_theme_change matches s) = matches.
Proof.
  unfold on_system_theme_change.
  destruct (ThemeMode_eqb _ system); reflexivity.
Qed.

Lemma listener_publishes matches s :
  isDark (themeStateSubject (on_system_theme_change matches s))
  = _isDark (on_system_theme_change matches s).
Proof.
  unfold _isDark.
  rewrite listener_keeps_mode, listener_sets_systemPrefersDark.
  unfold on_system_theme_change.
  cbn [_themeMode updateThemeState set_systemPrefersDark].
  destruct (_themeMode s) eqn:Hmode; cbn; unfold _isDark; cbn;
    rewrite Hmode; reflexivity.
Qed.

(** C10. The listener of the system's dark-mode query changes neither the
    mode nor the saved preference. In system mode the dark flag becomes
    the new system preference, and so do the published theme state and
    the theme applied to the page. In light or dark mode the dark flag
    stays what it was, which is whether the mode is dark, and the theme
    applied to the page is not touched. *)
Theorem system_theme_change (matches : bool) (s : State) :
  let s' := on_system_theme_change matches s in
  _themeMode s' = _themeMode s
  /\ saved_preference s' = saved_preference s
  /\ _systemPrefersDark s' = matches
  /\ (_themeMode s = system ->
      _isDark s' = matches
      /\ isDark (themeStateSubject s') = matches
      /\ data_theme s' = Some (if matches then "dark" else "light"))
  /\ (_themeMode s = light \/ _themeMode s = dark ->
      _isDark s' = _isDark s
      /\ (_isDark s' = true <-> _themeMode s = dark)
      /\ isDark (themeStateSubject s') = _isDark s
      /\ data_theme s' = data_theme s).
Proof.
  intros s'. subst s'.
  split; [apply listener_keeps_mode|].
  split; [apply listener_keeps_preference|].
  split; [apply listener_sets_systemPrefersDark|].
  split.
  - intros Hmode. rewrite listener_publishes. unfold _isDark.
    rewrite listener_keeps_mode, listener_sets_systemPrefersDark, Hmode.
    repeat split. unfold on_system_theme_change.
    cbn [_themeMode updateThemeState set_systemPrefersDark].
    rewrite Hmode. cbn. unfold _isDark. cbn. rewrite Hmode. reflexivity.
  - intros Hmode. rewrite listener_publishes. unfold _isDark.
    rewrite listener_keeps_mode.
    unfold on_system_theme_change.
    cbn [_themeMode updateThemeState set_systemPrefersDark].
    destruct Hmode as [Hmode|Hmode]; rewrite Hmode; cbn;
      repeat split; congruence.
Qed.

End Theme.

(** ** Errors in the data-fetch services *)



(** * Further properties *)

(** ** The sequences the pollers deliver *)

Lemma notifications_app {E} (l1 l2 : list (Effect E)) :
  notifications (l1 ++ l2) = (notifications l1 ++ notifications l2)%list.
Proof. apply omap_app. Qed.

(** A subscriber that is not stopped receives the notifications up to the
    first that ends the sequence. *)
Lemma observe_until_terminal {E} (effects : list (Effect E)) :
  forall s, isStopped s = false ->
  received (Rx.observe effects s)
  = (received s ++ until_terminal (notifications effects))%list.
Proof.
  induction effects as [|eff effects IH]; intros s Hs.
  - cbn. rewrite app_nil_r. reflexivity.
  - cbn [Rx.observe fold_left]. fold (Rx.observe effects (Rx.notify s eff)).
    destruct eff as [r|ms|ev| |e]; cbn [Rx.notify].
    + apply IH, Hs.
    + apply IH, Hs.
    + unfold Rx.next. rewrite Hs. rewrite IH by reflexivity.
      cbn. rewrite <- app_assoc. reflexivity.
    + unfold Rx.complete. rewrite Hs.
      rewrite observe_stopped by reflexivity. reflexivity.
    + unfold Rx.error. rewrite Hs.
      rewrite observe_stopped by reflexivity. reflexivity.
Qed.

Lemma upload_story_until_terminal l :
  upload_story l -> until_terminal l = l.
Proof.
  induction 1 as [|task Hs|e|task rest Ht Hrest IH]; try reflexivity.
  cbn. rewrite IH. reflexivity.
Qed.

Lemma download_story_until_terminal fileType l :
  download_story fileType l -> until_terminal l = l.
Proof.
  induction 1 as [|b|e|task rest Ht Hrest IH]; try reflexivity.
  cbn. rewrite IH. reflexivity.
Qed.

Lemma pollUpload_story taskId fileType rs :
  forall n,
  upload_story (notifications (pollUploadTaskStatus taskId fileType rs n)).
Proof.
  induction rs as [|r rest IH]; intros n.
  - cbn [pollUploadTaskStatus]. destruct (_ <=? _)%nat; constructor.
  - cbn [pollUploadTaskStatus]. destruct (_ <=? _)%nat; [constructor|].
    destruct r as [task|e]; [|apply IH].
    destruct (String.eqb_spec (status task) "COMPLETED") as [Hc|_].
    { apply upload_completed. exact Hc. }
    destruct (String.eqb (status task) "FAILED"); [constructor|].
    destruct (String.eqb (status task) "CANCELLED"); [constructor|].
    destruct (String.eqb_spec (status task) "PENDING") as [Hp|_].
    { cbn. apply upload_progressing; [left; exact Hp | apply IH]. }
    destruct (String.eqb_spec (status task) "RUNNING") as [Hr|_].
    { cbn. apply upload_progressing; [right; exact Hr | apply IH]. }
    constructor.
Qed.

Lemma pollDownload_story taskId fileType rs result :
  forall n,
  download_story fileType
    (notifications (pollTaskStatus taskId fileType rs result n)).
Proof.
  induction rs as [|r rest IH]; intros n.
  - cbn [pollTaskStatus]. destruct (_ <=? _)%nat; constructor.
  - cbn [pollTaskStatus]. destruct (_ <=? _)%nat; [constructor|].
    destruct r as [task|e]; [|apply IH].
    destruct (String.eqb (status task) "COMPLETED").
    { destruct result as [[b|e]|]; constructor. }
    destruct (String.eqb (status task) "FAILED"); [constructor|].
    destruct (String.eqb (status task) "CANCELLED"); [constructor|].
    destruct (String.eqb_spec (status task) "PENDING") as [Hp|_].
    { cbn. apply download_progressing; [left; exact Hp | apply IH]. }
    destruct (String.eqb_spec (status task) "RUNNING") as [Hr|_].
    { cbn. apply download_progressing; [right; exact Hr | apply IH]. }
    constructor.
Qed.

Lemma uploadFileAsync_story fileType file submit rs :
  upload_story (notifications (uploadFileAsync fileType file submit rs)).
Proof.
  unfold uploadFileAsync. destruct file; [|constructor].
  destruct submit as [[task|e]|]; [|constructor|constructor].
  destruct (String.eqb (status task) "FAILED"); [constructor|].
  apply (pollUpload_story (id task) fileType rs 0).
Qed.

Lemma downloadDataFileAsync_story fileType submit rs result :
  download_story fileType
    (notifications (downloadDataFileAsync fileType submit rs result)).
Proof.
  unfold downloadDataFileAsync.
  destruct submit as [[task|e]|]; [|constructor|constructor].
  destruct (String.eqb (status task) "FAILED"); [constructor|].
  apply (pollDownload_story (id task) fileType rs result 0).
Qed.

(** X1. Whatever the server answers, the sequence an upload or a download
    hands to its subscriber is a run of progress events of pending or
    running tasks, followed by nothing (still in flight), by the
    completion event and the completion, or by one error; and the
    subscriber receives every notification the producer sends: none is
    sent after the sequence has ended. *)
Theorem delivered_sequences_are_well_formed (fileType : string)
    (file : option File) (submit : option (HttpResult Task))
    (rs : list (HttpResult Task)) (result : option (HttpResult Blob)) :
  let up := uploadFileAsync fileType file submit rs in
  let down := downloadDataFileAsync fileType submit rs result in
  received (Rx.subscribed up) = notifications up
  /\ upload_story (received (Rx.subscribed up))
  /\ received (Rx.subscribed down) = notifications down
  /\ download_story fileType (received (Rx.subscribed down)).
Proof.
  intros up down.
  assert (Hup : received (Rx.subscribed up) = notifications up).
  { unfold Rx.subscribed. rewrite observe_until_terminal by reflexivity.
    apply upload_story_until_terminal, uploadFileAsync_story. }
  assert (Hdown : received (Rx.subscribed down) = notifications down).
  { unfold Rx.subscribed. rewrite observe_until_terminal by reflexivity.
    apply (download_story_until_terminal fileType),
      downloadDataFileAsync_story. }
  split; [exact Hup|]. split; [rewrite Hup; apply uploadFileAsync_story|].
  split; [exact Hdown|]. rewrite Hdown. apply downloadDataFileAsync_story.
Qed.

(** ** The cost of a run *)

Lemma total_delay_replicate {E} (effects : list (Effect E)) k c :
  delays effects = replicate k c ->
  total_delay effects = c * Z.of_nat k.
Proof.
  unfold total_delay. intros ->. induction k as [|k IH]; [cbn; lia|].
  cbn [replicate fold_right]. rewrite IH. lia.
Qed.

(** The budget of the upload poller from poll count [n]: [k] timers of
    2000 ms, with [k] bounded by the responses and by the polls left, and
    at most one status request per timer, plus one. *)
Lemma pollUpload_budget taskId fileType rs :
  forall n, exists k,
  delays (pollUploadTaskStatus taskId fileType rs n) = replicate k 2000
  /\ (k <= length rs)%nat /\ (k <= upload_maxPolls - n)%nat
  /\ (status_polls (requests (pollUploadTaskStatus taskId fileType rs n))
      <= k + 1)%nat
  /\ (status_polls (requests (pollUploadTaskStatus taskId fileType rs n))
      <= upload_maxPolls - n)%nat.
Proof.
  induction rs as [|r rest IH]; intros n.
  - cbn [pollUploadTaskStatus].
    destruct (Nat.leb_spec upload_maxPolls n) as [Hn|Hn]; exists 0%nat;
      cbn -[Nat.sub Nat.add upload_maxPolls]; repeat split; lia.
  - cbn [pollUploadTaskStatus].
    destruct (Nat.leb_spec upload_maxPolls n) as [Hn|Hn].
    { exists 0%nat. cbn -[Nat.sub Nat.add upload_maxPolls].
      repeat split; lia. }
    assert (Hstop : forall tail : list (Effect UploadEvent),
              delays tail = [] -> requests tail = [] ->
              exists k,
                delays (Send (GetTaskStatus taskId) :: tail) = replicate k 2000
                /\ (k <= length (r :: rest))%nat
                /\ (k <= upload_maxPolls - n)%nat
                /\ (status_polls (requests (Send (GetTaskStatus taskId)
                                            :: tail)) <= k + 1)%nat
                /\ (status_polls (requests (Send (GetTaskStatus taskId)
                                            :: tail))
                    <= upload_maxPolls - n)%nat).
    { intros tail Hd Hr. exists 0%nat.
      change (delays (Send (GetTaskStatus taskId) :: tail))
        with (delays tail).
      change (requests (Send (GetTaskStatus taskId) :: tail))
        with (GetTaskStatus taskId :: requests tail).
      rewrite Hd, Hr. cbn -[Nat.sub Nat.add upload_maxPolls].
      repeat split; lia. }
    assert (Hgo : forall evs : list (Effect UploadEvent),
              delays evs = [] -> requests evs = [] ->
              exists k,
                delays (Send (GetTaskStatus taskId) :: evs ++ SetTimeout 2000
                        :: pollUploadTaskStatus taskId fileType rest (n + 1))
                = replicate k 2000
                /\ (k <= length (r :: rest))%nat
                /\ (k <= upload_maxPolls - n)%nat
                /\ (status_polls
                      (requests (Send (GetTaskStatus taskId) :: evs
                                 ++ SetTimeout 2000
                                 :: pollUploadTaskStatus taskId fileType rest
                                      (n + 1))) <= k + 1)%nat
                /\ (status_polls
                      (requests (Send (GetTaskStatus taskId) :: evs
                                 ++ SetTimeout 2000
                                 :: pollUploadTaskStatus taskId fileType rest
                                      (n + 1)))
                    <= upload_maxPolls - n)%nat).
    { intros evs Hd Hr.
      destruct (IH (n + 1)%nat) as (k & Hk & Hlen & Hmax & Hp1 & Hp2).
      exists (S k).
      change (delays (Send (GetTaskStatus taskId) :: ?l)) with (delays l).
      rewrite (delays_app evs), Hd.
      change (requests (Send (GetTaskStatus taskId) :: ?l))
        with (GetTaskStatus taskId :: requests l).
      rewrite (requests_app evs), Hr.
      change (delays (SetTimeout 2000 :: ?l)) with (2000 :: delays l).
      change (requests (SetTimeout 2000 :: ?l)) with (requests l).
      rewrite Hk. cbn [app replicate length].
      change (status_polls (GetTaskStatus taskId :: ?l))
        with (S (status_polls l)).
      repeat split; lia. }
    destruct r as [task|e]; [|apply (Hgo []); reflexivity].
    destruct (String.eqb (status task) "COMPLETED");
      [apply Hstop; reflexivity|].
    destruct (String.eqb (status task) "FAILED"); [apply Hstop; reflexivity|].
    destruct (String.eqb (status task) "CANCELLED");
      [apply Hstop; reflexivity|].
    destruct (_ || _); [|apply Hstop; reflexivity].
    apply (Hgo [ObserverNext _]); reflexivity.
Qed.

Lemma pollDownload_budget taskId fileType rs result :
  forall n, exists k,
  delays (pollTaskStatus taskId fileType rs result n) = replicate k 5000
  /\ (k <= length rs)%nat /\ (k <= download_maxPolls - n)%nat
  /\ (status_polls (requests (pollTaskStatus taskId fileType rs result n))
      <= k + 1)%nat
  /\ (status_polls (requests (pollTaskStatus taskId fileType rs result n))
      <= download_maxPolls - n)%nat.
Proof.
  induction rs as [|r rest IH]; intros n.
  - cbn [pollTaskStatus].
    destruct (Nat.leb_spec download_maxPolls n) as [Hn|Hn]; exists 0%nat;
      cbn -[Nat.sub Nat.add download_maxPolls]; repeat split; lia.
  - cbn [pollTaskStatus].
    destruct (Nat.leb_spec download_maxPolls n) as [Hn|Hn].
    { exists 0%nat. cbn -[Nat.sub Nat.add download_maxPolls].
      repeat split; lia. }
    assert (Hstop : forall tail : list (Effect DownloadEvent),
              delays tail = [] -> status_polls (requests tail) = 0%nat ->
              exists k,
                delays (Send (GetTaskStatus taskId) :: tail) = replicate k 5000
                /\ (k <= length (r :: rest))%nat
                /\ (k <= download_maxPolls - n)%nat
                /\ (status_polls (requests (Send (GetTaskStatus taskId)
                                            :: tail)) <= k + 1)%nat
                /\ (status_polls (requests (Send (GetTaskStatus taskId)
                                            :: tail))
                    <= download_maxPolls - n)%nat).
    { intros tail Hd Hr. exists 0%nat.
      change (delays (Send (GetTaskStatus taskId) :: tail))
        with (delays tail).
      change (status_polls (requests (Send (GetTaskStatus taskId) :: tail)))
        with (S (status_polls (requests tail))).
      rewrite Hd, Hr. cbn -[Nat.sub Nat.add download_maxPolls].
      repeat split; lia. }
    assert (Hgo : forall evs : list (Effect DownloadEvent),
              delays evs = [] -> requests evs = [] ->
              exists k,
                delays (Send (GetTaskStatus taskId) :: evs ++ SetTimeout 5000
                        :: pollTaskStatus taskId fileType rest result (n + 1))
                = replicate k 5000
                /\ (k <= length (r :: rest))%nat
                /\ (k <= download_maxPolls - n)%nat
                /\ (status_polls
                      (requests (Send (GetTaskStatus taskId) :: evs
                                 ++ SetTimeout 5000
                                 :: pollTaskStatus taskId fileType rest result
                                      (n + 1))) <= k + 1)%nat
                /\ (status_polls
                      (requests (Send (GetTaskStatus taskId) :: evs
                                 ++ SetTimeout 5000
                                 :: pollTaskStatus taskId fileType rest result
                                      (n + 1)))
                    <= download_maxPolls - n)%nat).
    { intros evs Hd Hr.
      destruct (IH (n + 1)%nat) as (k & Hk & Hlen & Hmax & Hp1 & Hp2).
      exists (S k).
      change (delays (Send (GetTaskStatus taskId) :: ?l)) with (delays l).
      rewrite (delays_app evs), Hd.
      change (requests (Send (GetTaskStatus taskId) :: ?l))
        with (GetTaskStatus taskId :: requests l).
      rewrite (requests_app evs), Hr.
      change (delays (SetTimeout 5000 :: ?l)) with (5000 :: delays l).
      change (requests (SetTimeout 5000 :: ?l)) with (requests l).
      rewrite Hk. cbn [app replicate length].
      change (status_polls (GetTaskStatus taskId :: ?l))
        with (S (status_polls l)).
      repeat split; lia. }
    destruct r as [task|e]; [|apply (Hgo []); reflexivity].
    destruct (String.eqb (status task) "COMPLETED").
    { destruct result as [[b|e]|]; apply Hstop; reflexivity. }
    destruct (String.eqb (status task) "FAILED"); [apply Hstop; reflexivity|].
    destruct (String.eqb (status task) "CANCELLED");
      [apply Hstop; reflexivity|].
    destruct (_ || _); [|apply Hstop; reflexivity].
    apply (Hgo [ObserverNext _]); reflexivity.
Qed.

(** X2. Whatever the server answers, an upload issues at most 240 status
    requests and a download at most 120, and never more than one beyond
    the responses received; every timer of an upload is set to 2000 ms and
    every timer of a download to 5000 ms, so an upload waits at most
    480000 ms (8 minutes) on its timers and a download at most 600000 ms
    (10 minutes). *)
Theorem polling_budget (fileType : string) (file : option File)
    (submit : option (HttpResult Task)) (rs : list (HttpResult Task))
    (result : option (HttpResult Blob)) :
  let up := uploadFileAsync fileType file submit rs in
  let down := downloadDataFileAsync fileType submit rs result in
  (status_polls (requests up) <= 240)%nat
  /\ (status_polls (requests up) <= length rs + 1)%nat
  /\ Forall (fun ms => ms = 2000) (delays up)
  /\ 0 <= total_delay up <= 480000
  /\ (status_polls (requests down) <= 120)%nat
  /\ (status_polls (requests down) <= length rs + 1)%nat
  /\ Forall (fun ms => ms = 5000) (delays down)
  /\ 0 <= total_delay down <= 600000.
Proof.
  intros up down.
  assert (Hup : exists k,
            delays up = replicate k 2000 /\ (k <= length rs)%nat
            /\ (k <= 240)%nat /\ (status_polls (requests up) <= k + 1)%nat
            /\ (status_polls (requests up) <= 240)%nat).
  { subst up. unfold uploadFileAsync.
    destruct file as [f|]; [|exists 0%nat; cbn; repeat split; lia].
    destruct submit as [[task|e]|];
      [|exists 0%nat; cbn; repeat split; lia
       |exists 0%nat; cbn; repeat split; lia].
    destruct (String.eqb (status task) "FAILED");
      [exists 0%nat; cbn; repeat split; lia|].
    destruct (pollUpload_budget (id task) fileType rs 0)
      as (k & Hk & Hlen & Hmax & Hp1 & Hp2).
    exists k.
    change (delays (Send (PostUploadAsync fileType) :: ?l)) with (delays l).
    change (status_polls (requests (Send (PostUploadAsync fileType) :: ?l)))
      with (status_polls (requests l)).
    unfold upload_maxPolls in *. repeat split; try assumption; lia. }
  assert (Hdown : exists k,
            delays down = replicate k 5000 /\ (k <= length rs)%nat
            /\ (k <= 120)%nat /\ (status_polls (requests down) <= k + 1)%nat
            /\ (status_polls (requests down) <= 120)%nat).
  { subst down. unfold downloadDataFileAsync.
    destruct submit as [[task|e]|];
      [|exists 0%nat; cbn; repeat split; lia
       |exists 0%nat; cbn; repeat split; lia].
    destruct (String.eqb (status task) "FAILED");
      [exists 0%nat; cbn; repeat split; lia|].
    destruct (pollDownload_budget (id task) fileType rs result 0)
      as (k & Hk & Hlen & Hmax & Hp1 & Hp2).
    exists k.
    change (delays (Send (PostDownloadAsync fileType) :: ?l))
      with (delays l).
    change (status_polls (requests (Send (PostDownloadAsync fileType) :: ?l)))
      with (status_polls (requests l)).
    unfold download_maxPolls in *. repeat split; try assumption; lia. }
  destruct Hup as (k & Hk & Hlen & Hmax & Hp1 & Hp2).
  destruct Hdown as (k' & Hk' & Hlen' & Hmax' & Hp1' & Hp2').
  split; [exact Hp2|]. split; [lia|].
  split; [rewrite Hk; apply Forall_replicate; reflexivity|].
  split; [rewrite (total_delay_replicate up k 2000 Hk); lia|].
  split; [exact Hp2'|]. split; [lia|].
  split; [rewrite Hk'; apply Forall_replicate; reflexivity|].
  rewrite (total_delay_replicate down k' 5000 Hk'). lia.
Qed.

(** ** After the end of a run *)

Lemma terminated_cons {E} (eff : Effect E) (l : list (Effect E)) :
  l <> [] -> (terminated (eff :: l) <-> terminated l).
Proof.
  unfold terminated. destruct l as [|x l]; [congruence|]. intros _.
  reflexivity.
Qed.

Lemma pollUpload_nonempty taskId fileType rs n :
  pollUploadTaskStatus taskId fileType rs n <> [].
Proof.
  destruct rs; cbn [pollUploadTaskStatus]; destruct (_ <=? _)%nat;
    discriminate.
Qed.

Lemma pollDownload_nonempty taskId fileType rs result n :
  pollTaskStatus taskId fileType rs result n <> [].
Proof.
  destruct rs; cbn [pollTaskStatus]; destruct (_ <=? _)%nat; discriminate.
Qed.

Lemma pollUpload_stable taskId fileType rs more :
  forall n,
  terminated (pollUploadTaskStatus taskId fileType rs n) ->
  pollUploadTaskStatus taskId fileType (rs ++ more) n
  = pollUploadTaskStatus taskId fileType rs n.
Proof.
  induction rs as [|r rest IH]; intros n.
  - destruct (Nat.le_gt_cases upload_maxPolls n) as [Hn|Hn].
    + intros _. rewrite !pollUpload_at_ceiling by exact Hn. reflexivity.
    + rewrite pollUpload_in_flight by exact Hn. intros [].
  - cbn [app pollUploadTaskStatus]. destruct (_ <=? _)%nat; [reflexivity|].
    destruct r as [task|e].
    + destruct (String.eqb (status task) "COMPLETED"); [reflexivity|].
      destruct (String.eqb (status task) "FAILED"); [reflexivity|].
      destruct (String.eqb (status task) "CANCELLED"); [reflexivity|].
      destruct (_ || _); [|reflexivity].
      intros Ht. do 3 f_equal. apply IH.
      do 3 (apply terminated_cons in Ht;
            [|try discriminate; apply pollUpload_nonempty]).
      exact Ht.
    + intros Ht. do 2 f_equal. apply IH.
      do 2 (apply terminated_cons in Ht;
            [|try discriminate; apply pollUpload_nonempty]).
      exact Ht.
Qed.

Lemma pollDownload_stable taskId fileType rs result more :
  forall n,
  terminated (pollTaskStatus taskId fileType rs result n) ->
  pollTaskStatus taskId fileType (rs ++ more) result n
  = pollTaskStatus taskId fileType rs result n.
Proof.
  induction rs as [|r rest IH]; intros n.
  - destruct (Nat.le_gt_cases download_maxPolls n) as [Hn|Hn].
    + intros _. rewrite !pollDownload_at_ceiling by exact Hn. reflexivity.
    + rewrite pollDownload_in_flight by exact Hn. intros [].
  - cbn [app pollTaskStatus]. destruct (_ <=? _)%nat; [reflexivity|].
    destruct r as [task|e].
    + destruct (String.eqb (status task) "COMPLETED"); [reflexivity|].
      destruct (String.eqb (status task) "FAILED"); [reflexivity|].
      destruct (String.eqb (status task) "CANCELLED"); [reflexivity|].
      destruct (_ || _); [|reflexivity].
      intros Ht. do 3 f_equal. apply IH.
      do 3 (apply terminated_cons in Ht;
            [|try discriminate; apply pollDownload_nonempty]).
      exact Ht.
    + intros Ht. do 2 f_equal. apply IH.
      do 2 (apply terminated_cons in Ht;
            [|try discriminate; apply pollDownload_nonempty]).
      exact Ht.
Qed.

(** X3. Once an upload or a download has ended its sequence (by
    completing it or failing it), nothing the status endpoint would answer
    later changes the run: no further request, timer or notification. *)
Theorem ended_run_ignores_later_responses (fileType : string)
    (file : option File) (submit : option (HttpResult Task))
    (rs more : list (HttpResult Task)) (result : option (HttpResult Blob)) :
  (terminated (uploadFileAsync fileType file submit rs) ->
   uploadFileAsync fileType file submit (rs ++ more)
   = uploadFileAsync fileType file submit rs)
  /\ (terminated (downloadDataFileAsync fileType submit rs result) ->
      downloadDataFileAsync fileType submit (rs ++ more) result
      = downloadDataFileAsync fileType submit rs result).
Proof.
  split.
  - unfold uploadFileAsync. destruct file; [|reflexivity].
    destruct submit as [[task|e]|]; try reflexivity.
    destruct (String.eqb (status task) "FAILED"); [reflexivity|].
    intros Ht. f_equal. apply pollUpload_stable.
    apply terminated_cons in Ht; [exact Ht | apply pollUpload_nonempty].
  - unfold downloadDataFileAsync.
    destruct submit as [[task|e]|]; try reflexivity.
    destruct (String.eqb (status task) "FAILED"); [reflexivity|].
    intros Ht. f_equal. apply pollDownload_stable.
    apply terminated_cons in Ht; [exact Ht | apply pollDownload_nonempty].
Qed.

Lemma ended_run_ignores_later_responses_witness :
  let rs := [Ok (sample_task "RUNNING" (Some 40));
             Ok (sample_task "COMPLETED" (Some 100))] in
  let file := Some {| name := "data.tsv"; size := 1024 |} in
  let submit := Some (Ok (sample_task "PENDING" None)) in
  terminated (uploadFileAsync "styles" file submit rs)
  /\ uploadFileAsync "styles" file submit
       (rs ++ [Ok (sample_task "FAILED" None)])
     = uploadFileAsync "styles" file submit rs.
Proof.
  intros rs file submit.
  assert (H : terminated (uploadFileAsync "styles" file submit rs))
    by exact I.
  split; [exact H|].
  apply (ended_run_ignores_later_responses "styles" file submit rs
           [Ok (sample_task "FAILED" None)] None).
  exact H.
Defined.

(** ** The file of a download *)

Lemma pollDownload_file taskId fileType rs result :
  forall n,
  let tr := pollTaskStatus taskId fileType rs result n in
  (result_fetches (requests tr) = 0%nat
   /\ List.filter has_blob (emitted tr) = [])
  \/ (result_fetches (requests tr) = 1%nat
      /\ match result with
         | Some (Ok b) =>
           List.filter has_blob (emitted tr)
           = [download_completion_event fileType b]
           /\ last (notifications tr) = Some Completed
         | _ => List.filter has_blob (emitted tr) = []
         end).
Proof.
  induction rs as [|r rest IH]; intros n.
  - cbn [pollTaskStatus]. destruct (_ <=? _)%nat; left; split; reflexivity.
  - cbn [pollTaskStatus]. destruct (_ <=? _)%nat;
      [left; split; reflexivity|].
    destruct r as [task|e].
    + destruct (String.eqb (status task) "COMPLETED").
      { right. destruct result as [[b|e]|]; repeat split. }
      destruct (String.eqb (status task) "FAILED");
        [left; split; reflexivity|].
      destruct (String.eqb (status task) "CANCELLED");
        [left; split; reflexivity|].
      destruct (_ || _); [|left; split; reflexivity].
      destruct (IH (n + 1)%nat) as [[Hf Hb]|[Hf Hb]]; [left|right];
        (split; [exact Hf|]).
      * exact Hb.
      * destruct result as [[b|e]|]; try exact Hb.
        destruct Hb as [Hb Hl]. split; [exact Hb|].
        change (notifications (Send ?r :: ObserverNext ?ev :: SetTimeout ?ms
                               :: ?l))
          with (Value ev :: notifications l).
        destruct (notifications
                    (pollTaskStatus taskId fileType rest (Some (Ok b))
                       (n + 1))); [discriminate|exact Hl].
    + destruct (IH (n + 1)%nat) as [[Hf Hb]|[Hf Hb]]; [left|right];
        (split; [exact Hf|exact Hb]).
Qed.

(** X4. A download requests the result of its task at most once. It hands
    a file to its subscriber at most once, and only when it has requested
    the result and received the blob: the event then carries progress 100,
    that blob and the name [<fileType>_data.tsv], and the sequence
    completes right after it. *)
Theorem download_delivers_the_file_once (fileType : string)
    (submit : option (HttpResult Task)) (rs : list (HttpResult Task))
    (result : option (HttpResult Blob)) :
  let down := downloadDataFileAsync fileType submit rs result in
  (result_fetches (requests down) <= 1)%nat
  /\ (List.filter has_blob (emitted down) = []
      \/ exists b,
           result = Some (Ok b)
           /\ result_fetches (requests down) = 1%nat
           /\ List.filter has_blob (emitted down)
              = [{| dl_progress := 100; blob := Some b;
                    filename := Some (fileType ++ "_data.tsv") |}]
           /\ last (received (Rx.subscribed down)) = Some Completed).
Proof.
  intros down.
  assert (Hrecv : received (Rx.subscribed down) = notifications down).
  { unfold Rx.subscribed. rewrite observe_until_terminal by reflexivity.
    apply (download_story_until_terminal fileType),
      downloadDataFileAsync_story. }
  rewrite Hrecv. subst down. unfold downloadDataFileAsync.
  destruct submit as [[task|e]|];
    [|split; [cbn; lia | left; reflexivity]
     |split; [cbn; lia | left; reflexivity]].
  destruct (String.eqb (status task) "FAILED");
    [split; [cbn; lia | left; reflexivity]|].
  change (result_fetches (requests (Send (PostDownloadAsync fileType) :: ?l)))
    with (result_fetches (requests l)).
  change (emitted (Send (PostDownloadAsync fileType) :: ?l))
    with (emitted l).
  change (notifications (Send (PostDownloadAsync fileType) :: ?l))
    with (notifications l).
  destruct (pollDownload_file (id task) fileType rs result 0)
    as [[Hf Hb]|[Hf Hb]]; rewrite Hf.
  - split; [lia | left; exact Hb].
  - split; [lia|]. destruct result as [[b|e]|];
      [|left; exact Hb|left; exact Hb].
    right. exists b. destruct Hb as [Hb Hl]. repeat split; assumption.
Qed.

(** ** What a submission starts *)

(** X5. An upload polls only for the task its submission returned: every
    status request carries that task's id, and none is sent when no file
    is given, when the submission fails or when it returns a task that is
    already FAILED; in these cases the subscriber receives exactly one
    error: the missing-file error, the rewritten HTTP error, or the
    task's error message (or "Upload failed"). *)
Theorem upload_polls_only_its_task (fileType : string) (file : option File)
    (submit : option (HttpResult Task)) (rs : list (HttpResult Task)) :
  let up := uploadFileAsync fileType file submit rs in
  (forall r, In r (requests up) ->
     r = PostUploadAsync fileType
     \/ exists f task, file = Some f /\ submit = Some (Ok task)
                       /\ status task <> "FAILED"
                       /\ r = GetTaskStatus (id task))
  /\ (file = None ->
      requests up = []
      /\ received (Rx.subscribed up)
         = [Errored (new_Error "No file provided for upload")])
  /\ (forall f e, file = Some f -> submit = Some (Failed e) ->
      requests up = [PostUploadAsync fileType]
      /\ received (Rx.subscribed up) = [Errored (handleError e)])
  /\ (forall f task, file = Some f -> submit = Some (Ok task) ->
      status task = "FAILED" ->
      requests up = [PostUploadAsync fileType]
      /\ received (Rx.subscribed up)
         = [Errored
              (new_Error (JS.or_str (errorMessage task) "Upload failed"))]).
Proof.
  intros up. subst up. split; [|split; [|split]].
  - intros r Hr. unfold uploadFileAsync in Hr.
    destruct file as [f|]; [|destruct Hr].
    destruct submit as [[task|e]|];
      [|destruct Hr as [<-|[]]; left; reflexivity
       |destruct Hr as [<-|[]]; left; reflexivity].
    destruct (String.eqb_spec (status task) "FAILED") as [Hs|Hs];
      [destruct Hr as [<-|[]]; left; reflexivity|].
    change (In r (PostUploadAsync fileType
                  :: requests (pollUploadTaskStatus (id task) fileType rs 0)))
      in Hr.
    destruct Hr as [<-|Hr]; [left; reflexivity|].
    right. exists f, task. repeat split; try assumption.
    pose proof (pollUpload_requests (id task) fileType rs 0) as Hall.
    rewrite Forall_forall in Hall. apply Hall, list_elem_of_In, Hr.
  - intros ->. split; reflexivity.
  - intros f e -> ->. split; reflexivity.
  - intros f task -> -> Hs. unfold uploadFileAsync. rewrite Hs.
    split; reflexivity.
Qed.

(** ** The upload page during and after a run *)

Section UploadPage.
Import UploadComponent UploadStatusRefresh.

Lemma find_file_id fileType files file :
  find_file fileType files = Some file -> uf_id file = fileType.
Proof.
  unfold find_file. intros H. apply find_some in H as [_ H].
  apply String.eqb_eq. exact H.
Qed.

Lemma find_update_file fileType change files file :
  (forall f, uf_id (change f) = uf_id f) ->
  find_file fileType files = Some file ->
  find_file fileType (update_file fileType change files)
  = Some (change file).
Proof.
  intros Hid. unfold find_file.
  induction files as [|f rest IH]; [discriminate|].
  cbn [List.find update_file].
  destruct (String.eqb (uf_id f) fileType) eqn:Hf.
  - intros [= <-]. cbn [List.find]. rewrite Hid, Hf. reflexivity.
  - intros H. cbn [List.find]. rewrite Hf. apply IH, H.
Qed.

Lemma upload_view_story fileType l :
  upload_story l ->
  forall c target,
  find_file fileType (uploadFiles c) = Some target ->
  exists target',
    find_file fileType (uploadFiles (fst (upload_view fileType l c)))
    = Some target'
    /\ match last l with
       | Some Completed =>
         uf_status target' = Success /\ uf_progress target' = Some 100
         /\ snd (upload_view fileType l c) = [CallFetchDataStatus]
       | Some (Errored e) =>
         uf_status target' = Error /\ uf_progress target' = Some 0
         /\ uf_errorMessage target'
            = Some ("Upload failed: " ++ err_message e)
         /\ snd (upload_view fileType l c) = []
       | Some (Value ev) =>
         uf_status target' = Processing
         /\ uf_progress target' = Some (progress ev)
         /\ snd (upload_view fileType l c) = []
       | None =>
         fst (upload_view fileType l c) = c
         /\ snd (upload_view fileType l c) = []
       end.
Proof.
  induction 1 as [|task Hs|e|task rest Ht Hrest IH]; intros c target Hfind.
  - exists target. cbn. auto.
  - cbn [upload_view upload_notified]. rewrite Hfind.
    eexists. cbn [fst snd uploadFiles set_uploadFiles].
    split; [apply find_update_file; [reflexivity | exact Hfind]|].
    cbn. auto.
  - cbn [upload_view upload_notified]. rewrite Hfind.
    eexists. cbn [fst snd uploadFiles set_uploadFiles].
    split; [apply find_update_file; [reflexivity | exact Hfind]|].
    cbn. auto.
  - cbn [upload_view upload_notified]. rewrite Hfind.
    set (c1 := set_uploadFiles _ c).
    assert (Hfind1 : find_file fileType (uploadFiles c1)
                     = Some (on_upload_event (upload_progress_event task)
                               target)).
    { subst c1. cbn [uploadFiles set_uploadFiles].
      apply find_update_file; [reflexivity | exact Hfind]. }
    destruct (IH c1 _ Hfind1) as (target' & Hf' & Hlast).
    destruct (upload_view fileType rest c1) as [c2 calls] eqn:Hview.
    cbn [fst snd] in *. cbn [JS.truthy completed upload_progress_event app].
    destruct rest as [|n rest'].
    + cbn in Hview. injection Hview as <- <-.
      exists (on_upload_event (upload_progress_event task) target).
      split; [exact Hfind1|]. cbn. auto.
    + exists target'. split; [exact Hf'|].
      change (last (Value (upload_progress_event task) :: n :: rest'))
        with (last (n :: rest')).
      destruct (last (n :: rest')) as [[ev| |e]|] eqn:Hl; try exact Hlast.
      apply last_None in Hl. discriminate.
Qed.

(** X6. The page follows the run of an upload. For a file type shown on
    the page, after the notifications its subscription has received: if
    the sequence completed, the file is shown as success at 100 percent
    and the status has been fetched again, once; if it failed, the file is
    shown in error at 0 percent with the message "Upload failed: "
    followed by the error's message, and the status is not fetched; if
    the last notification is a progress event, the file is shown as
    processing at that event's percentage; and if nothing was received the
    page is as it was. *)
Theorem upload_page_follows_the_run (fileType : string) (file : option File)
    (submit : option (HttpResult Task)) (rs : list (HttpResult Task))
    (c : Component) (target : UploadFile)
    (Hfind : find_file fileType (uploadFiles c) = Some target) :
  let recv :=
    received (Rx.subscribed (uploadFileAsync fileType file submit rs)) in
  exists target',
    find_file fileType (uploadFiles (fst (upload_view fileType recv c)))
    = Some target'
    /\ match last recv with
       | Some Completed =>
         uf_status target' = Success /\ uf_progress target' = Some 100
         /\ snd (upload_view fileType recv c) = [CallFetchDataStatus]
       | Some (Errored e) =>
         uf_status target' = Error /\ uf_progress target' = Some 0
         /\ uf_errorMessage target'
            = Some ("Upload failed: " ++ err_message e)
         /\ snd (upload_view fileType recv c) = []
       | Some (Value ev) =>
         uf_status target' = Processing
         /\ uf_progress target' = Some (progress ev)
         /\ snd (upload_view fileType recv c) = []
       | None =>
         fst (upload_view fileType recv c) = c
         /\ snd (upload_view fileType recv c) = []
       end.
Proof.
  intros recv. apply upload_view_story with (target := target);
    [|exact Hfind].
  subst recv. unfold Rx.subscribed.
  rewrite observe_until_terminal by reflexivity.
  rewrite upload_story_until_terminal; apply uploadFileAsync_story.
Qed.

Lemma upload_page_follows_the_run_witness :
  let c := {| uploadFiles := initial_uploadFiles; selectedFile := None;
              selectedFileType := ""; showUploadModal := false |} in
  let recv :=
    received (Rx.subscribed
      (uploadFileAsync "skus" (Some {| name := "skus.tsv"; size := 2048 |})
         (Some (Ok (sample_task "PENDING" None)))
         [Ok (sample_task "RUNNING" (Some 40));
          Ok (sample_task "COMPLETED" (Some 100))])) in
  find_file "skus" (uploadFiles c)
  = Some (initial_file "skus" "SKUs Data"
            "Upload SKU master data - style-size combinations")
  /\ exists target',
       find_file "skus" (uploadFiles (fst (upload_view "skus" recv c)))
       = Some target'
       /\ uf_status target' = Success.
Proof.
  intros c recv.
  assert (H : find_file "skus" (uploadFiles c)
              = Some (initial_file "skus" "SKUs Data"
                        "Upload SKU master data - style-size combinations"))
    by reflexivity.
  split; [exact H|].
  destruct (upload_page_follows_the_run "skus"
              (Some {| name := "skus.tsv"; size := 2048 |})
              (Some (Ok (sample_task "PENDING" None)))
              [Ok (sample_task "RUNNING" (Some 40));
               Ok (sample_task "COMPLETED" (Some 100))] c _ H)
    as (target' & Hf & Hlast).
  exists target'. split; [exact Hf|]. apply Hlast.
Defined.

End UploadPage.

(** ** What the page lets the user do *)

Section UploadPageActions.
Import UploadComponent UploadStatusRefresh.

Lemma find_refreshed (statusData : UploadStatus) fileType files :
  find_file fileType (updateUploadFilesStatus statusData files)
  = option_map (refresh_file statusData) (find_file fileType files).
Proof.
  unfold find_file, updateUploadFilesStatus.
  induction files as [|f rest IH]; [reflexivity|].
  cbn [map List.find]. rewrite refresh_file_id.
  destruct (String.eqb (uf_id f) fileType); [reflexivity | exact IH].
Qed.

Lemma refreshed_processing (statusData : UploadStatus) file :
  enabled (checkUploadDependencies (uf_id file) statusData) = true ->
  Status_eqb (uf_status (refresh_file statusData file)) Processing
  = reported_processing statusData (uf_id file).
Proof.
  intros Hen. unfold refresh_file, apply_dependencies, reported_processing.
  rewrite Hen. cbn [negb uf_status].
  destruct (statusData !! uf_id file) as [st|].
  - destruct (JS.truthy (processing st)); [reflexivity|].
    destruct (JS.truthy (failed st)); [reflexivity|].
    destruct (exists_ st); [reflexivity|].
    unfold pending_unless_error.
    destruct (uf_status file) eqn:Hs; cbn; rewrite ?Hs; reflexivity.
  - unfold pending_unless_error.
    destruct (uf_status file) eqn:Hs; cbn; rewrite ?Hs; reflexivity.
Qed.

Lemma enabled_iff_prerequisites fileType (statusData : UploadStatus) :
  enabled (checkUploadDependencies fileType statusData) = true
  <-> forall p, In p (prerequisites fileType) -> has_exists statusData p.
Proof.
  rewrite enabled_iff_no_missing. split.
  - intros Hnil p Hp. apply exists_at_true.
    destruct (exists_at statusData p) eqn:Hex; [reflexivity|].
    assert (Hin : In p (missing statusData fileType)).
    { unfold missing. apply filter_In. rewrite Hex. auto. }
    rewrite Hnil in Hin. destruct Hin.
  - intros Hall.
    destruct (missing statusData fileType) as [|p l] eqn:Hm; [reflexivity|].
    assert (Hin : In p (missing statusData fileType))
      by (rewrite Hm; left; reflexivity).
    unfold missing in Hin. apply filter_In in Hin as [Hin Hneg].
    apply Hall, exists_at_true in Hin. rewrite Hin in Hneg. discriminate.
Qed.

(** X7. On a page just refreshed from a snapshot, with the modal closed,
    asking for the upload modal of a file type opens it exactly when the
    page lists the type, every prerequisite of the type exists in the
    snapshot and the snapshot does not report the type as being
    processed; the modal then opens for that type with no file selected,
    and otherwise the page is left as it was. *)
Theorem modal_opens_only_when_allowed (statusData : UploadStatus)
    (files : list UploadFile) (fileType : string) (c : Component)
    (Hfiles : uploadFiles c = updateUploadFilesStatus statusData files)
    (Hclosed : showUploadModal c = false) :
  (showUploadModal (openUploadModal fileType c) = true
   <-> (exists file, find_file fileType files = Some file)
       /\ (forall p, In p (prerequisites fileType) ->
                     has_exists statusData p)
       /\ reported_processing statusData fileType = false)
  /\ (showUploadModal (openUploadModal fileType c) = true ->
      selectedFileType (openUploadModal fileType c) = fileType
      /\ selectedFile (openUploadModal fileType c) = None
      /\ uploadFiles (openUploadModal fileType c) = uploadFiles c)
  /\ (showUploadModal (openUploadModal fileType c) = false ->
      openUploadModal fileType c = c).
Proof.
  unfold openUploadModal. rewrite Hfiles, find_refreshed.
  destruct (find_file fileType files) as [file|] eqn:Hfind; cbn [option_map].
  - pose proof (find_file_id _ _ _ Hfind) as Hid.
    rewrite refresh_file_canUpload, Hid.
    destruct (enabled (checkUploadDependencies fileType statusData))
      eqn:Hen.
    + pose proof (refreshed_processing statusData file) as Hproc.
      rewrite Hid in Hproc. rewrite (Hproc Hen). cbn [andb].
      pose proof (proj1 (enabled_iff_prerequisites _ _) Hen) as Hall.
      destruct (reported_processing statusData fileType);
        cbn [negb showUploadModal selectedFileType selectedFile uploadFiles].
      * rewrite Hclosed. repeat split; try discriminate; try reflexivity.
        intros (_ & _ & H). discriminate.
      * repeat split; try discriminate; try reflexivity; eauto.
    + cbn [andb]. rewrite Hclosed.
      repeat split; try discriminate; try reflexivity.
      intros (_ & Hall & _).
      pose proof (proj2 (enabled_iff_prerequisites _ _) Hall). congruence.
  - rewrite Hclosed. repeat split; try discriminate; try reflexivity.
    intros ([file Hf] & _). discriminate.
Qed.

Lemma modal_opens_only_when_allowed_witness :
  let statusData : UploadStatus :=
    <["styles" := {| exists_ := true; count := 12; processing := None;
                     failed := None; fs_progressPercentage := None;
                     fs_progressMessage := None; errorSummary := None;
                     fs_taskId := None |}]> ∅ in
  let c := {| uploadFiles :=
                updateUploadFilesStatus statusData initial_uploadFiles;
              selectedFile := None; selectedFileType := "";
              showUploadModal := false |} in
  uploadFiles c = updateUploadFilesStatus statusData initial_uploadFiles
  /\ showUploadModal c = false
  /\ showUploadModal (openUploadModal "skus" c) = true
  /\ openUploadModal "sales" c = c.
Proof.
  intros statusData c.
  destruct (modal_opens_only_when_allowed statusData initial_uploadFiles
              "sales" c eq_refl eq_refl) as (_ & _ & Hsales).
  split; [reflexivity|]. split; [reflexivity|]. split; [reflexivity|].
  apply Hsales. reflexivity.
Defined.

(** X8. On a page just refreshed from a snapshot, a blocked file type is
    inert: asking for its upload modal, for the cancellation of its task,
    for the download of its data or for its validation report changes
    nothing and calls nothing. *)
Theorem blocked_file_is_inert (statusData : UploadStatus)
    (files : list UploadFile) (fileType : string) (c : Component)
    (file : UploadFile)
    (Hfiles : uploadFiles c = updateUploadFilesStatus statusData files)
    (Hfind : find_file fileType (uploadFiles c) = Some file)
    (Hblocked : uf_status file = Blocked) :
  openUploadModal fileType c = c
  /\ cancelTask fileType c = []
  /\ downloadDataFile fileType c = []
  /\ downloadValidationReport fileType c = [].
Proof.
  assert (Hcan : canUpload file = false).
  { rewrite Hfiles, find_refreshed in Hfind.
    destruct (find_file fileType files) as [f|]; [|discriminate].
    injection Hfind as <-. rewrite refresh_file_canUpload.
    apply refresh_file_blocked. exact Hblocked. }
  unfold openUploadModal, cancelTask, downloadDataFile,
    downloadValidationReport.
  rewrite Hfind, Hcan, Hblocked. repeat split.
Qed.

Lemma blocked_file_is_inert_witness :
  let c := {| uploadFiles := updateUploadFilesStatus ∅ initial_uploadFiles;
              selectedFile := None; selectedFileType := "";
              showUploadModal := false |} in
  (exists file, find_file "sales" (uploadFiles c) = Some file
                /\ uf_status file = Blocked)
  /\ openUploadModal "sales" c = c.
Proof.
  intros c.
  assert (H : find_file "sales" (uploadFiles c)
              = Some (refresh_file ∅
                        (initial_file "sales" "Sales Data"
                           "Upload sales transaction data - depends on styles, stores, and SKUs")))
    by reflexivity.
  split; [eexists; split; [exact H | reflexivity]|].
  apply (blocked_file_is_inert ∅ initial_uploadFiles "sales" c _
           eq_refl H eq_refl).
Defined.

(** X9. A refresh does not wipe an upload error. When the snapshot says
    nothing that decides the status of a file (no entry, or an entry that
    is neither processing, failed nor existing) and its prerequisites
    exist, a file shown in error stays in error with its message, task id,
    progress and report flag, while a file in any other status goes back
    to pending. *)
Theorem error_survives_refresh (statusData : UploadStatus)
    (file : UploadFile)
    (Hundecided : undecided statusData (uf_id file))
    (Henabled : enabled (checkUploadDependencies (uf_id file) statusData)
                = true) :
  (uf_status file = Error ->
   uf_status (refresh_file statusData file) = Error
   /\ uf_errorMessage (refresh_file statusData file) = uf_errorMessage file
   /\ uf_taskId (refresh_file statusData file) = uf_taskId file
   /\ uf_progress (refresh_file statusData file) = uf_progress file
   /\ hasValidationReport (refresh_file statusData file)
      = hasValidationReport file)
  /\ (uf_status file <> Error ->
      uf_status (refresh_file statusData file) = Pending)
  /\ canUpload (refresh_file statusData file) = true.
Proof.
  unfold undecided in Hundecided.
  assert (Hr : refresh_file statusData file
               = apply_dependencies
                   (checkUploadDependencies (uf_id file) statusData)
                   (pending_unless_error file)).
  { unfold refresh_file.
    destruct (statusData !! uf_id file) as [st|]; [|reflexivity].
    destruct Hundecided as (-> & -> & ->). reflexivity. }
  rewrite Hr. unfold apply_dependencies, pending_unless_error.
  rewrite Henabled. split; [|split].
  - intros Hs. rewrite Hs. cbn. rewrite Hs. repeat split.
  - intros Hne. destruct (uf_status file) eqn:Hs; try reflexivity.
    congruence.
  - reflexivity.
Qed.

Lemma error_survives_refresh_witness :
  let failed_upload :=
    on_upload_error (new_Error "3 validation errors")
      (initial_file "styles" "Styles Data" "") in
  undecided ∅ (uf_id failed_upload)
  /\ enabled (checkUploadDependencies (uf_id failed_upload) ∅) = true
  /\ uf_status (refresh_file ∅ failed_upload) = Error
  /\ uf_errorMessage (refresh_file ∅ failed_upload)
     = Some "Upload failed: 3 validation errors".
Proof.
  intros failed_upload.
  assert (H1 : undecided ∅ (uf_id failed_upload)) by exact I.
  assert (H2 : enabled (checkUploadDependencies (uf_id failed_upload) ∅)
               = true) by reflexivity.
  split; [exact H1|]. split; [exact H2|].
  destruct (error_survives_refresh ∅ failed_upload H1 H2) as (He & _).
  destruct (He eq_refl) as (Hs & Hm & _). split; [exact Hs|].
  rewrite Hm. reflexivity.
Defined.

End UploadPageActions.

(** ** A status request that fails *)

Section FailedRefresh.
Import UploadComponent UploadStatusRefresh.

Lemma fallbackData_is_the_service_fallback :
  fallbackData = UploadService.fallbackStatus.
Proof. reflexivity. Qed.

Lemma fallback_entry key st :
  UploadService.fallbackStatus !! key = Some st -> st = UploadService.absent.
Proof.
  unfold UploadService.fallbackStatus. intros H.
  repeat (apply lookup_insert_Some in H as [[_ H]|[_ H]]; [congruence|]).
  rewrite lookup_empty in H. discriminate.
Qed.

Lemma fallback_nothing_exists key :
  exists_at UploadService.fallbackStatus key = false.
Proof.
  unfold exists_at.
  destruct (UploadService.fallbackStatus !! key) as [st|] eqn:Hk;
    [|reflexivity].
  apply fallback_entry in Hk. subst st. reflexivity.
Qed.

Lemma refresh_on_fallback file :
  refresh_file UploadService.fallbackStatus file
  = apply_dependencies
      (checkUploadDependencies (uf_id file) UploadService.fallbackStatus)
      (pending_unless_error file).
Proof.
  unfold refresh_file.
  destruct (UploadService.fallbackStatus !! uf_id file) as [st|] eqn:Hk;
    [|reflexivity].
  apply fallback_entry in Hk. subst st. reflexivity.
Qed.

Lemma enabled_on_fallback fileType :
  enabled (checkUploadDependencies fileType UploadService.fallbackStatus)
  = negb (String.eqb fileType "skus" || String.eqb fileType "sales").
Proof.
  destruct (String.eqb_spec fileType "sales") as [->|Hsales].
  { rewrite checkUploadDependencies_sales. reflexivity. }
  destruct (String.eqb_spec fileType "skus") as [->|Hskus].
  { rewrite checkUploadDependencies_skus, fallback_nothing_exists.
    reflexivity. }
  unfold checkUploadDependencies.
  apply String.eqb_neq in Hsales, Hskus. rewrite Hsales, Hskus.
  destruct (_ || _); reflexivity.
Qed.

(** X10. When the status request fails, in whatever way, the page ends
    its loading state and shows every file as the all-absent snapshot
    dictates: skus and sales blocked and not uploadable, every other file
    uploadable and pending, except that a file already in error stays in
    error. The service's fallback (for a text error body) and the
    component's own (for any other error) give the same page; only the
    former counts as a refresh. *)
Theorem failed_status_fetch_degrades (e : HttpErrorResponse)
    (files : list UploadFile) :
  let page := fetchDataStatus (Failed e) files in
  isLoading page = false
  /\ lastRefreshTime_set page = UploadService.body_is_text e
  /\ page_files page
     = updateUploadFilesStatus UploadService.fallbackStatus files
  /\ Forall2 (fun old new =>
                uf_id new = uf_id old
                /\ if String.eqb (uf_id old) "skus"
                      || String.eqb (uf_id old) "sales"
                   then uf_status new = Blocked /\ canUpload new = false
                   else canUpload new = true
                        /\ uf_status new
                           = if Status_eqb (uf_status old) Error
                             then Error else Pending)
             files (page_files page).
Proof.
  intros page.
  assert (Hfiles : page_files page
            = updateUploadFilesStatus UploadService.fallbackStatus files).
  { subst page. unfold fetchDataStatus, UploadService.getUploadStatus.
    cbn [catchError]. destruct (UploadService.body_is_text e); reflexivity. }
  split; [|split; [|split; [exact Hfiles|]]].
  - subst page. unfold fetchDataStatus, UploadService.getUploadStatus.
    cbn [catchError]. destruct (UploadService.body_is_text e); reflexivity.
  - subst page. unfold fetchDataStatus, UploadService.getUploadStatus.
    cbn [catchError]. destruct (UploadService.body_is_text e); reflexivity.
  - rewrite Hfiles. unfold updateUploadFilesStatus. clear.
    induction files as [|f rest IH]; [constructor|].
    cbn [map]. constructor; [|exact IH].
    rewrite refresh_on_fallback. unfold apply_dependencies.
    rewrite enabled_on_fallback. cbn [uf_id uf_status canUpload].
    split; [unfold pending_unless_error;
            destruct (negb (Status_eqb (uf_status f) Error)); reflexivity|].
    destruct (String.eqb (uf_id f) "skus" || String.eqb (uf_id f) "sales");
      cbn [negb]; split; try reflexivity.
    unfold pending_unless_error.
    destruct (Status_eqb (uf_status f) Error) eqn:Hs; cbn [negb];
      [|reflexivity].
    destruct (uf_status f); try discriminate. reflexivity.
Qed.

(** X11. One selection gives at most one submission: whatever the state
    of the component, a second [uploadFile] right after a first sends
    nothing; and a first that did submit has closed the modal and cleared
    the selected file and type. *)
Theorem uploadFile_submits_once (c : Component) :
  sent (snd (uploadFile (fst (uploadFile c)))) = []
  /\ (sent (snd (uploadFile c)) <> [] ->
      sent (snd (uploadFile c)) = [PostUploadAsync (selectedFileType c)]
      /\ selectedFile (fst (uploadFile c)) = None
      /\ selectedFileType (fst (uploadFile c)) = ""
      /\ showUploadModal (fst (uploadFile c)) = false
      /\ uploadFiles (fst (uploadFile c)) = uploadFiles c).
Proof.
  unfold uploadFile at 2 3 4 5 6 7 8.
  destruct (selectedFile c) as [file|] eqn:Hfile.
  - destruct (String.eqb (selectedFileType c) "") eqn:Htype.
    { cbn [fst snd]. unfold uploadFile. rewrite Hfile, Htype.
      split; [reflexivity|]. intros H. destruct H. reflexivity. }
    destruct (Validation.isValidFileType file) eqn:Hvt.
    2:{ cbn [fst snd negb]. unfold uploadFile. rewrite Hfile, Htype, Hvt.
        split; [reflexivity|]. intros H. destruct H. reflexivity. }
    destruct (Validation.isValidFileSize file Validation.default_maxSizeMB)
      eqn:Hvs.
    2:{ cbn [fst snd negb]. unfold uploadFile.
        rewrite Hfile, Htype, Hvt, Hvs.
        split; [reflexivity|]. intros H. destruct H. reflexivity. }
    cbn [fst snd negb]. split; [reflexivity|]. intros _. repeat split.
  - cbn [fst snd]. unfold uploadFile. rewrite Hfile.
    split; [reflexivity|]. intros H. destruct H. reflexivity.
Qed.

End FailedRefresh.

Lemma uploadFile_submits_once_witness :
  let c := {| UploadComponent.uploadFiles :=
                UploadComponent.initial_uploadFiles;
              UploadComponent.selectedFile :=
                Some {| name := "styles.tsv"; size := 4096 |};
              UploadComponent.selectedFileType := "styles";
              UploadComponent.showUploadModal := true |} in
  UploadComponent.sent (snd (UploadComponent.uploadFile c)) <> []
  /\ UploadComponent.selectedFile (fst (UploadComponent.uploadFile c)) = None.
Proof.
  intros c.
  assert (H : UploadComponent.sent (snd (UploadComponent.uploadFile c)) <> [])
    by discriminate.
  split; [exact H|].
  destruct (uploadFile_submits_once c) as [_ Hsub].
  apply (Hsub H).
Defined.

(** ** The theme store *)

Section ThemeStore.
Import ThemeService.

Lemma setTheme_mode w m s : _themeMode (setTheme w m s) = m.
Proof. reflexivity. Qed.

Lemma setTheme_isDark w m s :
  _isDark (setTheme w m s)
  = if ThemeMode_eqb m system then _systemPrefersDark s
    else ThemeMode_eqb m dark.
Proof. reflexivity. Qed.

Lemma setTheme_consistent w m s : theme_consistent (setTheme w m s).
Proof. repeat split. Qed.

(** X12. Toggling the theme always inverts the effective dark flag and
    leaves the store in an explicit mode, light or dark, never system: in
    system mode it picks the opposite of the system preference. The new
    mode is what is published, applied to the page and, when the storage
    accepts it, saved. *)
Theorem toggleTheme_inverts (storage_writable : bool) (s : State) :
  let s' := toggleTheme storage_writable s in
  _isDark s' = negb (_isDark s)
  /\ _themeMode s' = (if _isDark s then light else dark)
  /\ isDark (themeStateSubject s') = negb (_isDark s)
  /\ data_theme s' = Some (if _isDark s then "light" else "dark")
  /\ (storage_writable = true ->
      saved_preference s' = Some (if _isDark s then "light" else "dark")).
Proof.
  unfold toggleTheme, _isDark at 1 2 3 4 5.
  destruct (_themeMode s) eqn:Hmode; cbn [ThemeMode_eqb].
  - unfold _isDark. rewrite Hmode. cbn. repeat split. intros ->. reflexivity.
  - unfold _isDark. rewrite Hmode. cbn. repeat split. intros ->. reflexivity.
  - unfold _isDark. rewrite Hmode. cbn.
    destruct (_systemPrefersDark s); cbn; repeat split; intros ->;
      reflexivity.
Qed.

(** X13. In every state the theme service can reach (from its
    construction, by [setTheme], [toggleTheme], [clearThemePreference] and
    the system listener), the theme state it publishes is the one of its
    signals, and the theme and the theme colour applied to the page are
    those of its effective dark flag. *)
Theorem theme_store_is_consistent (s : State) (Hreach : theme_reachable s) :
  theme_consistent s.
Proof.
  induction Hreach as [q saved|w m s _ _|w s _ _|r w s _ IH|matches s _ IH].
  - unfold init. repeat split.
  - apply setTheme_consistent.
  - unfold toggleTheme. destruct (ThemeMode_eqb _ _);
      apply setTheme_consistent.
  - unfold clearThemePreference, resetTheme. destruct r; [|exact IH].
    apply setTheme_consistent.
  - destruct IH as (Hpub & Hdom & Hmeta).
    unfold on_system_theme_change.
    cbn [_themeMode updateThemeState set_systemPrefersDark].
    destruct (_themeMode s) eqn:Hmode; cbn [ThemeMode_eqb].
    + unfold theme_consistent, _isDark in *. cbn. rewrite Hmode in *.
      cbn in *. repeat split; try assumption.
      unfold _isDark. cbn. rewrite Hmode. reflexivity.
    + unfold theme_consistent, _isDark in *. cbn. rewrite Hmode in *.
      cbn in *. repeat split; try assumption.
      unfold _isDark. cbn. rewrite Hmode. reflexivity.
    + unfold theme_consistent. cbn. unfold _isDark. cbn.
      rewrite !Hmode. cbn. repeat split.
Qed.

Lemma theme_store_is_consistent_witness :
  let s := on_system_theme_change true
             (toggleTheme true (init false (Some "system"))) in
  theme_reachable s
  /\ data_theme s = Some "dark" /\ _themeMode s = dark.
Proof.
  intros s.
  assert (H : theme_reachable s) by (repeat constructor).
  split; [exact H|].
  destruct (theme_store_is_consistent s H) as (_ & Hdom & _).
  split; [rewrite Hdom; reflexivity | reflexivity].
Defined.

(** X14. The saved preference round-trips: a mode set while the storage
    is writable is the mode the service starts in when it is constructed
    again from that storage, whatever the system preference; a mode set
    while the storage refuses writes is not, the service then starts in
    whatever was saved before; and a saved value that is none of light,
    dark and system is ignored, the service starting in system mode and
    following the system preference. *)
Theorem theme_preference_round_trip (m : ThemeMode) (s : State)
    (query_matches : bool) (junk : string) :
  _themeMode (init query_matches (saved_preference (setTheme true m s))) = m
  /\ getSavedThemePreference (Some (mode_name m)) = Some m
  /\ init query_matches (saved_preference (setTheme false m s))
     = init query_matches (saved_preference s)
  /\ (junk <> "light" -> junk <> "dark" -> junk <> "system" ->
      _themeMode (init query_matches (Some junk)) = system
      /\ _isDark (init query_matches (Some junk)) = query_matches)
  /\ _themeMode (init query_matches None) = system.
Proof.
  split; [destruct m; reflexivity|].
  split; [destruct m; reflexivity|].
  split; [reflexivity|]. split; [|reflexivity].
  intros H1 H2 H3. apply String.eqb_neq in H1, H2, H3.
  unfold init, getSavedThemePreference. rewrite H1, H2, H3.
  split; reflexivity.
Qed.

(** X15. Clearing the preference does not leave the storage empty: when
    the storage accepts the removal and the write that follows, the store
    is back in system mode, follows the system preference, and the saved
    preference is "system"; when the write is refused the storage is left
    empty; and when the removal is refused nothing changes at all. *)
Theorem clearing_saves_system (s : State) :
  saved_preference (clearThemePreference true true s) = Some "system"
  /\ _themeMode (clearThemePreference true true s) = system
  /\ _isDark (clearThemePreference true true s) = _systemPrefersDark s
  /\ saved_preference (clearThemePreference true false s) = None
  /\ (forall w, clearThemePreference false w s = s).
Proof. repeat split. Qed.

End ThemeStore.

(** ** The sidebar *)

Section Sidebar.
Import SidebarStateService MainLayoutComponent.

(** X16. The collapsed state of the sidebar round-trips through the
    storage: after [setCollapsed] with a writable storage, a service
    constructed from what is stored starts in that state; without a
    stored item, or with one that is not "true", it starts expanded. Two
    toggles bring the state and the stored item back to those of a
    collapsed state set explicitly. *)
Theorem sidebar_state_round_trip (collapsed : bool) (s : State)
    (junk : string) :
  isCollapsed (construct (stored (fst (setCollapsed true collapsed s))))
  = collapsed
  /\ construct (stored (fst (setCollapsed true collapsed s)))
     = fst (setCollapsed true collapsed s)
  /\ isCollapsed (construct None) = false
  /\ (junk <> "true" -> isCollapsed (construct (Some junk)) = false)
  /\ fst (toggle true (fst (toggle true s)))
     = fst (setCollapsed true (isCollapsed s) s)
  /\ stored (fst (setCollapsed false collapsed s)) = stored s.
Proof.
  split; [destruct collapsed; reflexivity|].
  split; [destruct collapsed; reflexivity|].
  split; [reflexivity|]. split.
  - intros H. apply String.eqb_neq in H. cbn. exact H.
  - split; [|reflexivity]. unfold toggle, setCollapsed, isCollapsed. cbn.
    rewrite negb_involutive. reflexivity.
Qed.

(** X17. The layout and the sidebar. On a handset width (at most 1024)
    every handler leaves the sidebar not collapsed and does not touch the
    service or the storage. On a desktop width, toggling inverts the
    collapsed flag, hands it to the service and, with a writable storage,
    opens the sidebar and stores the flag, so that a layout initialised
    from a service constructed from the storage shows it again; closing
    changes nothing; and a resize keeps the flag. A resize closes the
    sidebar at every width. *)
Theorem layout_sidebar_rules (innerWidth : Z) (w : bool) (l : Layout) :
  (isHandset innerWidth = true ->
   sidebarCollapsed (toggleSidebar innerWidth w l) = false
   /\ sidebarCollapsed (closeSidebar innerWidth l) = false
   /\ sidebarCollapsed (onResize innerWidth l) = false
   /\ sidebarOpen (toggleSidebar innerWidth w l) = negb (sidebarOpen l)
   /\ sidebarOpen (closeSidebar innerWidth l) = false
   /\ sidebarStateService (toggleSidebar innerWidth w l)
      = sidebarStateService l
   /\ sidebarStateService (closeSidebar innerWidth l)
      = sidebarStateService l)
  /\ (isHandset innerWidth = false ->
      sidebarCollapsed (toggleSidebar innerWidth w l)
      = negb (sidebarCollapsed l)
      /\ isCollapsed (sidebarStateService (toggleSidebar innerWidth w l))
         = sidebarCollapsed (toggleSidebar innerWidth w l)
      /\ (w = true ->
          sidebarOpen (toggleSidebar innerWidth w l) = true
          /\ sidebarCollapsed
               (ngOnInit
                  (construct
                     (stored (sidebarStateService
                                (toggleSidebar innerWidth w l)))))
             = sidebarCollapsed (toggleSidebar innerWidth w l))
      /\ closeSidebar innerWidth l = l
      /\ sidebarCollapsed (onResize innerWidth l) = sidebarCollapsed l)
  /\ sidebarOpen (onResize innerWidth l) = false
  /\ sidebarStateService (onResize innerWidth l) = sidebarStateService l.
Proof.
  unfold toggleSidebar, closeSidebar, onResize.
  destruct (isHandset innerWidth).
  - split; [intros _; repeat split|].
    split; [discriminate|]. split; reflexivity.
  - split; [discriminate|]. split; [|split; reflexivity].
    intros _. cbn. repeat split.
    + subst w. reflexivity.
    + subst w. destruct (sidebarCollapsed l); reflexivity.
Qed.

End Sidebar.

(** ** The notification list *)

Section Notifications.
Import NotificationList.

Lemma removeNotification_spec id s n :
  In n (notificationsSubject (removeNotification id s))
  <-> In n (notificationsSubject s) /\ n_id n <> id.
Proof.
  unfold removeNotification. cbn [notificationsSubject].
  rewrite filter_In. split; intros [Hin Hid]; split; try exact Hin.
  - apply String.eqb_neq. destruct (String.eqb (n_id n) id);
      [discriminate | reflexivity].
  - apply String.eqb_neq in Hid. rewrite Hid. reflexivity.
Qed.

(** X18. The life of a toast. Showing a notification appends it to the
    list with a fresh counter value in its id; it sets a removal timer
    exactly when its duration is positive, with that duration and that
    id, so that [success], [warning] and [info] toasts disappear after
    5000 ms by default while [error] toasts stay. When the timer fires,
    no notification with that id is left and the others are those that
    were there before the toast was shown, in the same order. *)
Theorem toast_lifecycle (kind : Kind) (default : Z) (title message : string)
    (duration : option Z) (now stamp : Z) (s : State) :
  let d := match duration with Some d => d | None => default end in
  let toastId :=
    "notification-" ++ JS.show (notificationId s + 1) ++ "-"
    ++ JS.show now in
  let shown := fst (notify kind default title message duration now stamp s) in
  let timer := snd (notify kind default title message duration now stamp s) in
  (exists toast,
     notificationsSubject shown = (notificationsSubject s ++ [toast])%list
     /\ n_id toast = toastId /\ n_type toast = kind
     /\ n_duration toast = Some d)
  /\ notificationId shown = notificationId s + 1
  /\ timer = (if (0 <? d)%Z
              then Some {| timer_delay := d; timer_removes := toastId |}
              else None)
  /\ notificationsSubject (removeNotification toastId shown)
     = notificationsSubject (removeNotification toastId s)
  /\ (Forall (fun n => n_id n <> toastId) (notificationsSubject s) ->
      notificationsSubject (removeNotification toastId shown)
      = notificationsSubject s)
  /\ snd (error_ title message None now stamp s) = None
  /\ snd (success_ title message None now stamp s)
     = Some {| timer_delay := 5000; timer_removes := toastId |}
  /\ snd (warning_ title message None now stamp s)
     = Some {| timer_delay := 5000; timer_removes := toastId |}
  /\ snd (info_ title message None now stamp s)
     = Some {| timer_delay := 5000; timer_removes := toastId |}.
Proof.
  intros d toastId shown timer.
  assert (Hremove : notificationsSubject (removeNotification toastId shown)
                    = notificationsSubject (removeNotification toastId s)).
  { subst shown. unfold notify, generateId, addNotification,
      removeNotification.
    cbn [fst notificationsSubject n_id]. rewrite List.filter_app.
    cbn [List.filter n_id]. fold toastId. rewrite String.eqb_refl.
    cbn [negb]. apply app_nil_r. }
  split; [eexists; repeat split|].
  split; [reflexivity|]. split; [reflexivity|].
  split; [exact Hremove|]. split; [|repeat split].
  intros Hfresh. rewrite Hremove. unfold removeNotification.
  cbn [notificationsSubject].
  induction (notificationsSubject s) as [|n l IH]; [reflexivity|].
  apply Forall_cons in Hfresh as [Hn Hl]. cbn [List.filter].
  apply String.eqb_neq in Hn. rewrite Hn. cbn [negb]. f_equal.
  apply IH, Hl.
Qed.

(** X19. Marking as read and the server. [markAsRead] marks every
    notification with that id as read in the list whether the request
    succeeded or failed, and changes nothing else; [markAllAsRead] marks
    them all when the server answers with success, after which the header
    counts no unread notification, and leaves the list untouched when the
    request fails or the answer reports no success. Neither changes the
    number of notifications. *)
Theorem read_marks_and_the_server (id : string) (r : HttpResult Json)
    (e : HttpErrorResponse) (s : State) :
  markAsRead id (Failed e) s = markAsRead id r s
  /\ Forall2 (fun old new =>
                if String.eqb (n_id old) id
                then new = set_read old else new = old)
             (notificationsSubject s)
             (notificationsSubject (markAsRead id r s))
  /\ (notificationCount (markAsRead id r s) <= notificationCount s)%nat
  /\ notificationCount (markAllAsRead (Ok true) s) = 0%nat
  /\ length (notificationsSubject (markAllAsRead (Ok true) s))
     = length (notificationsSubject s)
  /\ markAllAsRead (Failed e) s = s
  /\ markAllAsRead (Ok false) s = s.
Proof.
  split; [reflexivity|]. split; [|split; [|split; [|split]]].
  - unfold markAsRead. cbn [notificationsSubject].
    induction (notificationsSubject s) as [|n l IH]; [constructor|].
    cbn [map]. constructor; [|exact IH].
    destruct (String.eqb (n_id n) id); reflexivity.
  - unfold notificationCount, markAsRead. cbn [notificationsSubject].
    induction (notificationsSubject s) as [|n l IH]; [cbn; lia|].
    cbn [map List.filter].
    destruct (String.eqb (n_id n) id); cbn [set_read n_isRead JS.truthy negb];
      destruct (negb (JS.truthy (n_isRead n))); cbn [length]; lia.
  - unfold notificationCount, markAllAsRead. cbn [notificationsSubject].
    induction (notificationsSubject s) as [|n l IH]; [reflexivity|].
    cbn [map List.filter set_read n_isRead JS.truthy negb]. exact IH.
  - unfold markAllAsRead. cbn [notificationsSubject]. apply length_map.
  - split; reflexivity.
Qed.

Lemma startsWith_append p s : Str.startsWith p (p ++ s) = true.
Proof.
  induction p as [|c p IH]; [destruct s; reflexivity|].
  change (Ascii.eqb c c && Str.startsWith p (p ++ s) = true).
  rewrite Ascii.eqb_refl. exact IH.
Qed.

(** X20. Loading replaces the list. After [loadNotifications], whatever
    the list held before (toasts included), it holds exactly the
    notifications of the response, in order, each with an id that starts
    with "backend-" and a duration of 0; when the request fails, or the
    response has no list, it is empty. For such a loaded notification the
    panel's remove button never removes it: it marks it as read and the
    list keeps its length. The id counter is not touched. *)
Theorem loading_replaces_the_list
    (r : HttpResult (option (list BackendNotification)))
    (e : HttpErrorResponse) (r' : HttpResult Json) (s : State) :
  let loaded := loadNotifications r s in
  (forall body, r = Ok (Some body) ->
     notificationsSubject loaded = map mapBackendToFrontend body)
  /\ notificationsSubject (loadNotifications (Failed e) s) = []
  /\ notificationsSubject (loadNotifications (Ok None) s) = []
  /\ notificationId loaded = notificationId s
  /\ Forall (fun n => Str.startsWith "backend-" (n_id n) = true
                      /\ n_duration n = Some 0)
            (notificationsSubject loaded)
  /\ (forall n, In n (notificationsSubject loaded) ->
      length (notificationsSubject
                (panel_removeNotification (n_id n) r' loaded))
      = length (notificationsSubject loaded)
      /\ In (set_read n)
            (notificationsSubject
               (panel_removeNotification (n_id n) r' loaded))).
Proof.
  intros loaded.
  assert (Hall : Forall (fun n => Str.startsWith "backend-" (n_id n) = true
                                  /\ n_duration n = Some 0)
                        (notificationsSubject loaded)).
  { subst loaded. unfold loadNotifications. cbn [notificationsSubject].
    destruct r as [[body|]|e0]; try constructor.
    induction body as [|b body IH]; [constructor|].
    cbn [map]. constructor; [|exact IH].
    split; [apply startsWith_append | reflexivity]. }
  split; [intros body ->; reflexivity|].
  split; [reflexivity|]. split; [reflexivity|]. split; [reflexivity|].
  split; [exact Hall|].
  intros n Hn. unfold panel_removeNotification.
  rewrite Forall_forall in Hall.
  destruct (Hall n) as [Hprefix _]; [apply list_elem_of_In; exact Hn|].
  rewrite Hprefix. unfold markAsRead. cbn [notificationsSubject].
  split; [apply length_map|].
  apply in_map_iff. exists n. rewrite String.eqb_refl. auto.
Qed.

End Notifications.

(** ** The names the type check accepts *)

Section AcceptedNames.
Import Validation.












End AcceptedNames.

(** ** The file a download hands to the browser *)

Section BrowserDownload.
Import UploadComponent.




End BrowserDownload.

(** ** Dates and error messages *)

Section Formatting.
Import DateFormat.

Lemma before_T_has_no_T s : Str.includes (before_T s) "T" = false.
Proof.
  induction s as [|c s IH]; [reflexivity|].
  cbn [before_T]. destruct (Ascii.eqb c "T") eqn:Hc; [reflexivity|].
  cbn [Str.includes Str.startsWith]. rewrite Ascii.eqb_sym, Hc.
  cbn [andb orb]. exact IH.
Qed.

Lemma before_T_fixed s :
  Str.includes s "T" = false -> before_T s = s.
Proof.
  induction s as [|c s IH]; [reflexivity|].
  cbn [Str.includes Str.startsWith before_T].
  rewrite (Ascii.eqb_sym "T" c).
  destruct (Ascii.eqb c "T"); [discriminate|].
  cbn [andb orb]. intros H. rewrite IH by exact H. reflexivity.
Qed.

Lemma before_T_prefix s : Str.startsWith (before_T s) s = true.
Proof.
  induction s as [|c s IH]; [reflexivity|].
  cbn [before_T]. destruct (Ascii.eqb c "T"); [reflexivity|].
  cbn [Str.startsWith]. rewrite Ascii.eqb_refl. exact IH.
Qed.

(** X23. [formatDate] keeps the date part: for a text it returns the
    part before the first "T", which is a prefix of the text, contains no
    "T" and is the whole text when the text has none; formatting its own
    result again changes nothing. For a date object it does the same to
    the ISO rendering, and raises exactly when that rendering does. *)
Theorem formatDate_keeps_the_date_part (Date : Type)
    (toISOString : Date -> option string) (date : Date + string) :
  (forall out, formatDate Date toISOString date = Some out ->
     Str.includes out "T" = false
     /\ formatDate Date toISOString (inr out) = Some out)
  /\ (forall text, date = inr text ->
      exists out, formatDate Date toISOString date = Some out
                  /\ Str.startsWith out text = true
                  /\ (Str.includes text "T" = false -> out = text))
  /\ (forall d, date = inl d ->
      formatDate Date toISOString date
      = option_map before_T (toISOString d))
  /\ formatDate Date toISOString (inr "2019-06-23T18:30:00.000Z")
     = Some "2019-06-23".
Proof.
  split; [|split; [|split]].
  - intros out Hout.
    assert (Hb : exists s, out = before_T s).
    { destruct date as [d|text]; cbn in Hout.
      - destruct (toISOString d) as [iso|]; [|discriminate].
        injection Hout as <-. eauto.
      - injection Hout as <-. eauto. }
    destruct Hb as [s ->]. split; [apply before_T_has_no_T|].
    cbn. rewrite before_T_fixed by apply before_T_has_no_T. reflexivity.
  - intros text ->. exists (before_T text). split; [reflexivity|].
    split; [apply before_T_prefix | apply before_T_fixed].
  - intros d ->. cbn. destruct (toISOString d); reflexivity.
  - reflexivity.
Qed.


End Formatting.

(** ** From the modal to the upload *)

Section SelectAndUpload.
Import UploadComponent Validation.

(** X25. From the modal to the request. When the page lists a file type
    that can be uploaded and is not being processed, opening its modal,
    selecting a file and uploading sends one upload request, for that
    type, exactly when the first selected file passes the type and the
    size check; the modal is then closed and the selection cleared. With
    no file selected after opening the modal, uploading sends nothing. *)
Theorem selected_file_is_uploaded_for_the_opened_type (c : Component)
    (fileType : string) (target : UploadFile) (file : File)
    (others : list File)
    (Hfind : find_file fileType (uploadFiles c) = Some target)
    (Hcan : canUpload target = true)
    (Hidle : uf_status target <> Processing)
    (Htype : fileType <> "") :
  let opened := openUploadModal fileType c in
  let selected := onFileSelected (Some (file :: others)) opened in
  showUploadModal opened = true
  /\ selectedFile opened = None
  /\ sent (snd (uploadFile selected))
     = (if isValidFileType file && isValidFileSize file default_maxSizeMB
        then [PostUploadAsync fileType] else [])
  /\ (isValidFileType file && isValidFileSize file default_maxSizeMB = true
      -> showUploadModal (fst (uploadFile selected)) = false
         /\ selectedFile (fst (uploadFile selected)) = None
         /\ uploadFiles (fst (uploadFile selected)) = uploadFiles c)
  /\ sent (snd (uploadFile opened)) = []
  /\ sent (snd (uploadFile (onFileSelected (Some []) opened))) = []
  /\ sent (snd (uploadFile (onFileSelected None opened))) = [].
Proof.
  intros opened selected.
  assert (Hopened : opened
            = {| uploadFiles := uploadFiles c; selectedFile := None;
                 selectedFileType := fileType; showUploadModal := true |}).
  { subst opened. unfold openUploadModal. rewrite Hfind, Hcan.
    destruct (uf_status target); try reflexivity. congruence. }
  subst selected. rewrite Hopened. apply String.eqb_neq in Htype.
  unfold onFileSelected, uploadFile.
  cbn [selectedFile selectedFileType showUploadModal uploadFiles].
  rewrite Htype.
  destruct (isValidFileType file); cbn [negb andb];
    [destruct (isValidFileSize file default_maxSizeMB); cbn [negb]|];
    repeat split; discriminate.
Qed.

Lemma selected_file_is_uploaded_for_the_opened_type_witness :
  let c := {| uploadFiles := initial_uploadFiles; selectedFile := None;
              selectedFileType := ""; showUploadModal := false |} in
  let file := {| name := "Stores.TSV"; size := 2048 |} in
  find_file "stores" (uploadFiles c)
  = Some (initial_file "stores" "Stores Data"
            "Upload store master data - branch and city information")
  /\ "stores" <> ""
  /\ sent (snd (uploadFile
                 (onFileSelected (Some [file])
                    (openUploadModal "stores" c))))
     = [PostUploadAsync "stores"].
Proof.
  intros c file.
  assert (Hfind : find_file "stores" (uploadFiles c)
            = Some (initial_file "stores" "Stores Data"
                      "Upload store master data - branch and city information"))
    by reflexivity.
  assert (Hne : "stores" <> "") by discriminate.
  split; [exact Hfind|]. split; [exact Hne|].
  destruct (selected_file_is_uploaded_for_the_opened_type c "stores" _ file []
              Hfind eq_refl ltac:(discriminate) Hne)
    as (_ & _ & Hsent & _).
  exact Hsent.
Defined.

End SelectAndUpload.
